(** * DHCP client exchange and network-configuration extraction (Windows build)

    A shallow embedding of
      - package [netboot]  : [GetNetConfFromPacketv6], [GetNetConfFromPacketv4], [IfUp];
      - package [client4]  : [toUDPAddr], [Client.Exchange], [Client.sendReceive];
    together with the few functions of Go's [net] and [time] packages that
    those bodies call.

    Conventions.
      - A Go slice is a [list]; the nil slice and the empty slice are both [[]]
        except where the source tests a slice against [nil] ([net.IP],
        [net.IPMask]), in which case the value is an [option].
      - A Go pointer that the source tests against [nil] is an [option].
      - The extraction functions of [netboot] and [Exchange], whose two
        results the specification speaks of separately, return a pair whose
        second component is an [option error]; [None] is the nil error.
        The helpers of [client4], every [return] of which gives either a
        value or an error, return a sum.
      - [time.Duration] is a signed count of nanoseconds, a [Z]. *)

From Stdlib Require Import List ZArith NArith Bool Lia.
From Stdlib.Strings Require Import String Ascii Byte.
Import ListNotations.
Open Scope string_scope.
Open Scope list_scope.
Open Scope Z_scope.

(** ** Bytes and durations *)

Definition byte := Byte.byte.

(** Byte literal from its numeric value (values above 255 do not occur). *)
Definition B (n : N) : byte :=
  match Byte.of_N n with
  | Some b => b
  | None => Byte.x00
  end.

Fixpoint bytes_Equal (a b : list byte) : bool :=
  match a, b with
  | [], [] => true
  | x :: a', y :: b' => Byte.eqb x y && bytes_Equal a' b'
  | _, _ => false
  end.

Module time.
Definition Duration := Z.
Definition Time := Z.
Definition Nanosecond : Duration := 1.
Definition Millisecond : Duration := 1000000 * Nanosecond.
Definition Second : Duration := 1000 * Millisecond.
End time.

(** ** Package [net] of the Go standard library (the parts the sources call) *)

Module net.

Definition IP := list byte.
Definition IPMask := list byte.

Definition IPv4len : nat := 4.
Definition IPv6len : nat := 16.

Definition v4InV6Prefix : list byte :=
  [B 0; B 0; B 0; B 0; B 0; B 0; B 0; B 0; B 0; B 0; B 255; B 255].

(** [net.IPv4(a, b, c, d)]: the 16-byte form of an IPv4 address. *)
Definition IPv4 (a b c d : byte) : IP := v4InV6Prefix ++ [a; b; c; d].

Definition IPv4zero : IP := IPv4 (B 0) (B 0) (B 0) (B 0).
Definition IPv4bcast : IP := IPv4 (B 255) (B 255) (B 255) (B 255).

(** [func (ip IP) Equal(x IP) bool]: an IPv4 address and the same address
    in IPv6 form are considered equal. *)
Definition Equal (ip x : IP) : bool :=
  if Nat.eqb (List.length ip) (List.length x) then bytes_Equal ip x
  else if Nat.eqb (List.length ip) IPv4len && Nat.eqb (List.length x) IPv6len then
    bytes_Equal (firstn 12 x) v4InV6Prefix && bytes_Equal ip (skipn 12 x)
  else if Nat.eqb (List.length ip) IPv6len && Nat.eqb (List.length x) IPv4len then
    bytes_Equal (firstn 12 ip) v4InV6Prefix && bytes_Equal (skipn 12 ip) x
  else false.

Definition isZeros (p : list byte) : bool :=
  forallb (fun b => Byte.eqb b (B 0)) p.

(** [func (ip IP) To4() IP]; [None] is the nil result. *)
Definition To4 (ip : IP) : option IP :=
  if Nat.eqb (List.length ip) IPv4len then Some ip
  else if Nat.eqb (List.length ip) IPv6len
          && isZeros (firstn 10 ip)
          && bytes_Equal (firstn 2 (skipn 10 ip)) [B 255; B 255]
  then Some (skipn 12 ip)
  else None.

(** The inner loop of [simpleMaskLength]:
    [for v&0x80 != 0 { n++; v <<= 1 }] on a [byte] [v].  Eight rounds
    always suffice, as every round shifts one bit out of the byte. *)
Fixpoint leading_ones (rounds : nat) (v : N) (n : Z) : N * Z :=
  match rounds with
  | O => (v, n)
  | S r =>
      if N.eqb (N.land v 128) 0 then (v, n)
      else leading_ones r (N.shiftl v 1 mod 256)%N (n + 1)
  end.

(** [simpleMaskLength]: the number of leading ones of a mask made of ones
    followed by zeros only, and [-1] for any other mask. *)
Fixpoint simpleMaskLength_from (mask : list byte) (n : Z) : Z :=
  match mask with
  | [] => n
  | v :: rest =>
      if Byte.eqb v (B 255) then simpleMaskLength_from rest (n + 8)
      else
        let '(v', n') := leading_ones 8 (Byte.to_N v) n in
        if negb (N.eqb v' 0) then -1
        else if isZeros rest then n' else -1
  end.

Definition simpleMaskLength (mask : IPMask) : Z := simpleMaskLength_from mask 0.

(** [func (m IPMask) Size() (ones, bits int)]. *)
Definition Size (m : IPMask) : Z * Z :=
  let ones := simpleMaskLength m in
  let bits := Z.of_nat (List.length m) * 8 in
  if ones =? -1 then (0, 0) else (ones, bits).

(** The loop of [CIDRMask] filling [l] bytes from [n] remaining ones. *)
Fixpoint CIDRMask_fill (l : nat) (n : N) : list byte :=
  match l with
  | O => []
  | S l' =>
      if (8 <=? n)%N then B 255 :: CIDRMask_fill l' (n - 8)%N
      else B (N.lxor 255 (N.shiftr 255 n)) :: CIDRMask_fill l' 0%N
  end.

(** [func CIDRMask(ones, bits int) IPMask]; [None] is the nil result. *)
Definition CIDRMask (ones bits : Z) : option IPMask :=
  if negb (bits =? 8 * Z.of_nat IPv4len) && negb (bits =? 8 * Z.of_nat IPv6len)
  then None
  else if (ones <? 0) || (bits <? ones) then None
  else Some (CIDRMask_fill (Z.to_nat (bits / 8)) (Z.to_N ones)).

(** [net.IPNet]; the [Mask] may be the nil mask. *)
Record IPNet := mkIPNet { IP_ : IP; Mask : option IPMask }.

Record UDPAddr := mkUDPAddr { UDPAddr_IP : IP; Port : Z }.

(** A value of interface type [net.Addr]: either a [*net.UDPAddr] or a
    value of some other dynamic type, known by its type name. *)
Inductive Addr :=
| Addr_UDP (a : UDPAddr)
| Addr_other (typeName : string).

(** [net.Flags] is a bit set; [FlagUp] is its lowest bit. *)
Definition Flags := N.
Definition FlagUp : Flags := 1%N.

Record Interface := mkInterface { Index : Z; Name : string; Flags_ : Flags }.

End net.

(** ** Errors *)

(** Go [error] values as the sources build them.  [fmt.Errorf] keeps its
    format and arguments apart, so that no text rendering is needed.
    [os_error] is an error raised by the operating system through package
    [net]; its flag is what [net.Error.Timeout()] reports. *)
Inductive error :=
| errors_New (text : string)
| fmt_Errorf (format : string) (args : list fmt_arg)
| os_error (text : string) (timeout : bool)
with fmt_arg :=
| arg_error (e : error)
| arg_string (s : string)
| arg_IP (ip : net.IP)
| arg_type (typeName : string).

(** The error a read reports when the armed read deadline elapses. *)
Definition ErrDeadlineExceeded : error := os_error "i/o timeout" true.

(** Modelled from the spec: the error taxonomy of its section 7.  The
    sources carry no error kinds, only messages. *)
Inductive ErrorKind :=
| Timeout | MissingOption | MissingField | InvalidValue
| Unsupported | Transport | ParseError.

(** Modelled from the spec: the kind section 7 gives to each error the
    sources build, told apart by its message. *)
Definition kind_of (e : error) : option ErrorKind :=
  match e with
  | errors_New t =>
      if String.eqb t "no option IA NA found" then Some MissingOption
      else if String.eqb t "ip address is null (0.0.0.0)" then Some MissingField
      else if String.eqb t "no netmask option in response packet" then Some MissingOption
      else if String.eqb t "netmask extracted from OptSubnetMask options is null"
      then Some InvalidValue
      else if String.eqb t "dns search list is empty" then Some InvalidValue
      else if String.eqb t "ConfigureInterface is not implemented on Windows; use netsh or Windows API instead"
      then Some Unsupported
      else None
  | fmt_Errorf f args =>
      if String.eqb f "timed out while waiting for %s to come up" then Some Timeout
      else if String.eqb f "failed to receive DHCP response: %v" then
        match args with
        | [arg_error (os_error _ true)] => Some Timeout
        | _ => Some Transport
        end
      else if String.eqb f "failed to send DHCP packet: %v" then Some Transport
      else if String.eqb f "failed to listen on UDP: %v" then Some Transport
      else None
  | os_error _ true => Some Timeout
  | os_error _ false => Some Transport
  end.

(** ** The message codec (packages [rfc1035label], [dhcpv4], [dhcpv6])

    The codec packages are outside the sources embedded here.  Messages are
    therefore kept in decoded form: the header fields the sources read, and
    one entry per option accessor the sources call. *)

Module rfc1035label.
Record Labels := mkLabels { Labels_ : list string }.
End rfc1035label.

Module dhcpv4.

(** Protocol constants declared by the codec (RFC 2131, RFC 2132). *)
Definition OpcodeType := N.
Definition OpcodeBootRequest : OpcodeType := 1%N.
Definition OpcodeBootReply : OpcodeType := 2%N.

Definition MessageType_t := N.
Definition MessageTypeNone : MessageType_t := 0%N.
Definition MessageTypeDiscover : MessageType_t := 1%N.
Definition MessageTypeOffer : MessageType_t := 2%N.
Definition MessageTypeRequest : MessageType_t := 3%N.
Definition MessageTypeAck : MessageType_t := 5%N.

Definition ClientPort : Z := 68.
Definition ServerPort : Z := 67.

(** [type TransactionID [4]byte]; Go compares arrays element-wise. *)
Definition TxID := (byte * byte * byte * byte)%type.

Definition TxID_eqb (a b : TxID) : bool :=
  let '(a0, a1, a2, a3) := a in
  let '(b0, b1, b2, b3) := b in
  Byte.eqb a0 b0 && Byte.eqb a1 b1 && Byte.eqb a2 b2 && Byte.eqb a3 b3.

(** Modelled from the spec: the option bag of a v4 message, decoded.  An
    absent option is [None] (or the nil slice [[]] for the list-valued
    accessors of section 6: DNS servers, routers, NTP servers). *)
Record Options := mkOptions {
  optMessageType : option MessageType_t;
  optSubnetMask : option net.IPMask;
  optIPAddressLeaseTime : option time.Duration;
  optDNS : list net.IP;
  optDomainSearch : option rfc1035label.Labels;
  optRouter : list net.IP;
  optNTPServers : list net.IP
}.

Record DHCPv4 := mkDHCPv4 {
  OpCode : OpcodeType;
  TransactionID : TxID;
  YourIPAddr : option net.IP;
  Options_ : Options
}.

(** Modelled from the spec: the accessors of section 6. *)
Definition MessageType (d : DHCPv4) : MessageType_t :=
  match optMessageType (Options_ d) with
  | Some t => t
  | None => MessageTypeNone
  end.

Definition SubnetMask (d : DHCPv4) : option net.IPMask :=
  optSubnetMask (Options_ d).

(** Modelled from the spec: the lease time, or [def] when the option is
    absent. *)
Definition IPAddressLeaseTime (d : DHCPv4) (def : time.Duration) : time.Duration :=
  match optIPAddressLeaseTime (Options_ d) with
  | Some t => t
  | None => def
  end.

Definition DNS (d : DHCPv4) : list net.IP := optDNS (Options_ d).
Definition DomainSearch (d : DHCPv4) : option rfc1035label.Labels :=
  optDomainSearch (Options_ d).
Definition Router (d : DHCPv4) : list net.IP := optRouter (Options_ d).
Definition NTPServers (d : DHCPv4) : list net.IP := optNTPServers (Options_ d).

(** [type Modifier func(d *DHCPv4)]: a transform of the message under
    construction. *)
Definition Modifier := DHCPv4 -> DHCPv4.

End dhcpv4.

Module dhcpv6.

Record OptIAAddress := mkOptIAAddress {
  IPv6Addr : net.IP;
  PreferredLifetime : time.Duration;
  ValidLifetime : time.Duration
}.

(** Modelled from the spec: the options nested in an IA_NA, decoded:
    its bound addresses in the order received. *)
Record IdentityOptions := mkIdentityOptions {
  Addresses : list OptIAAddress
}.

Record OptIANA := mkOptIANA {
  T1 : time.Duration;
  T2 : time.Duration;
  IANA_Options : IdentityOptions
}.

(** Modelled from the spec: the option bag of a v6 message, decoded, one
    field per accessor of section 6. *)
Record MessageOptions := mkMessageOptions {
  OneIANA : option OptIANA;
  DNS : list net.IP;
  DomainSearchList : option rfc1035label.Labels;
  NTPServers : list net.IP
}.

Record Message := mkMessage {
  MessageType : N;
  TransactionID : byte * byte * byte;
  Options : MessageOptions
}.

End dhcpv6.

(** ** Package [netboot] *)

Module netboot.

(** AddrConf holds a single IP address configuration for a NIC. *)
Record AddrConf := mkAddrConf {
  IPNet : net.IPNet;
  PreferredLifetime : time.Duration;
  ValidLifetime : time.Duration
}.

(** NetConf holds multiple IP configuration for a NIC, and DNS
    configuration. *)
Record NetConf := mkNetConf {
  Addresses : list AddrConf;
  DNSServers : list net.IP;
  DNSSearchList : list string;
  Routers : list net.IP;
  NTPServers : list net.IP
}.

(** The zero value [NetConf{}]. *)
Definition NetConf_zero : NetConf := mkNetConf [] [] [] [] [].

(** Field assignments [netconf.F = v]. *)
Definition set_Addresses (n : NetConf) (v : list AddrConf) : NetConf :=
  mkNetConf v (DNSServers n) (DNSSearchList n) (Routers n) (NTPServers n).
Definition set_DNSServers (n : NetConf) (v : list net.IP) : NetConf :=
  mkNetConf (Addresses n) v (DNSSearchList n) (Routers n) (NTPServers n).
Definition set_DNSSearchList (n : NetConf) (v : list string) : NetConf :=
  mkNetConf (Addresses n) (DNSServers n) v (Routers n) (NTPServers n).
Definition set_Routers (n : NetConf) (v : list net.IP) : NetConf :=
  mkNetConf (Addresses n) (DNSServers n) (DNSSearchList n) v (NTPServers n).
Definition set_NTPServers (n : NetConf) (v : list net.IP) : NetConf :=
  mkNetConf (Addresses n) (DNSServers n) (DNSSearchList n) (Routers n) v.

(** GetNetConfFromPacketv6 extracts network configuration information
    from a DHCPv6 Reply packet and returns a populated NetConf structure. *)
Definition GetNetConfFromPacketv6 (d : dhcpv6.Message)
  : option NetConf * option error :=
  let iana := dhcpv6.OneIANA (dhcpv6.Options d) in
  match iana with
  | None => (None, Some (errors_New "no option IA NA found"))
  | Some iana =>
      let netconf := NetConf_zero in
      let netconf :=
        fold_left
          (fun netconf iaaddr =>
             set_Addresses netconf
               (Addresses netconf ++
                  [ mkAddrConf
                      (net.mkIPNet (dhcpv6.IPv6Addr iaaddr) (net.CIDRMask 128 128))
                      (dhcpv6.PreferredLifetime iaaddr)
                      (dhcpv6.ValidLifetime iaaddr) ]))
          (dhcpv6.Addresses (dhcpv6.IANA_Options iana))
          netconf in
      (* get DNS configuration *)
      let netconf := set_DNSServers netconf (dhcpv6.DNS (dhcpv6.Options d)) in
      (* get domain search list *)
      let domains := dhcpv6.DomainSearchList (dhcpv6.Options d) in
      let netconf :=
        match domains with
        | Some domains => set_DNSSearchList netconf (rfc1035label.Labels_ domains)
        | None => netconf
        end in
      (* get NTP servers *)
      let netconf := set_NTPServers netconf (dhcpv6.NTPServers (dhcpv6.Options d)) in
      (Some netconf, None)
  end.

(** GetNetConfFromPacketv4 extracts network configuration information
    from a DHCPv4 Reply packet and returns a populated NetConf structure. *)
Definition GetNetConfFromPacketv4 (d : dhcpv4.DHCPv4)
  : option NetConf * option error :=
  (* extract the address from the DHCPv4 address *)
  let ipAddr := dhcpv4.YourIPAddr d in
  match ipAddr with
  | None => (None, Some (errors_New "ip address is null (0.0.0.0)"))
  | Some ipAddr =>
      if net.Equal ipAddr net.IPv4zero
      then (None, Some (errors_New "ip address is null (0.0.0.0)"))
      else
        let netconf := NetConf_zero in
        (* get the subnet mask from OptionSubnetMask *)
        let netmask := dhcpv4.SubnetMask d in
        match netmask with
        | None => (None, Some (errors_New "no netmask option in response packet"))
        | Some netmask =>
            let '(ones, _) := net.Size netmask in
            if ones =? 0
            then (None, Some (errors_New
                     "netmask extracted from OptSubnetMask options is null"))
            else
              let leaseTime := dhcpv4.IPAddressLeaseTime d 0 in
              let netconf :=
                set_Addresses netconf
                  (Addresses netconf ++
                     [ mkAddrConf (net.mkIPNet ipAddr (Some netmask)) 0 leaseTime ]) in
              (* get DNS configuration *)
              let netconf := set_DNSServers netconf (dhcpv4.DNS d) in
              (* get domain search list *)
              let dnsSearchList := dhcpv4.DomainSearch d in
              let checked : NetConf + error :=
                match dnsSearchList with
                | Some dnsSearchList =>
                    if Nat.eqb (List.length (rfc1035label.Labels_ dnsSearchList)) 0
                    then inr (errors_New "dns search list is empty")
                    else inl (set_DNSSearchList netconf
                                (rfc1035label.Labels_ dnsSearchList))
                | None => inl netconf
                end in
              match checked with
              | inr err => (None, Some err)
              | inl netconf =>
                  (* get default gateway *)
                  let netconf := set_Routers netconf (dhcpv4.Router d) in
                  (* get NTP servers *)
                  let netconf := set_NTPServers netconf (dhcpv4.NTPServers d) in
                  (Some netconf, None)
              end
        end
  end.

(** *** The operating system as [IfUp] observes it

    [IfUp] reads the monotonic clock, queries the interface table and
    sleeps.  What the clock shows and what the table answers is not under
    the program's control: [Env] gives the value of the k-th clock reading
    and the answer to the k-th lookup.  [World] counts the calls made so
    far and records every sleep. *)
Record Env := mkEnv {
  clock : nat -> time.Time;
  ifquery : nat -> string -> net.Interface + error
}.

Record World := mkWorld {
  clock_reads : nat;
  lookups : nat;
  sleeps : list time.Duration
}.

Definition World_start : World := mkWorld 0 0 [].

Definition time_Now (env : Env) (w : World) : time.Time * World :=
  (clock env (clock_reads w), mkWorld (S (clock_reads w)) (lookups w) (sleeps w)).

(** [time.Since(t)] is [time.Now().Sub(t)]. *)
Definition time_Since (env : Env) (t : time.Time) (w : World)
  : time.Duration * World :=
  let '(now, w) := time_Now env w in (now - t, w).

Definition time_Sleep (d : time.Duration) (w : World) : World :=
  mkWorld (clock_reads w) (lookups w) (sleeps w ++ [d]).

Definition net_InterfaceByName (env : Env) (name : string) (w : World)
  : (net.Interface + error) * World :=
  (ifquery env (lookups w) name, mkWorld (clock_reads w) (S (lookups w)) (sleeps w)).

(** The loop of [IfUp]; [fuel] bounds the number of iterations, [None]
    means the bound was reached before the loop ended. *)
Fixpoint IfUp_loop (env : Env) (fuel : nat) (ifname : string)
    (timeout : time.Duration) (start : time.Time) (w : World)
  : option (option net.Interface * option error * World) :=
  match fuel with
  | O => None
  | S fuel' =>
      let '(elapsed, w) := time_Since env start w in
      if elapsed <? timeout then
        let '(r, w) := net_InterfaceByName env ifname w in
        match r with
        | inr err => Some (None, Some err, w)
        | inl iface =>
            (* Check if interface is up *)
            if negb (N.eqb (N.land (net.Flags_ iface) net.FlagUp) 0)
            then Some (Some iface, None, w)
            else
              let w := time_Sleep (100 * time.Millisecond) w in
              IfUp_loop env fuel' ifname timeout start w
        end
      else
        Some (None,
              Some (fmt_Errorf "timed out while waiting for %s to come up"
                      [arg_string ifname]),
              w)
  end.

(** IfUp brings up an interface by name, and waits for it to come up
    until a timeout expires.  On Windows, this simply checks if the
    interface exists and is ready. *)
Definition IfUp (env : Env) (fuel : nat) (ifname : string)
    (timeout : time.Duration) (w : World)
  : option (option net.Interface * option error * World) :=
  let '(start, w) := time_Now env w in
  IfUp_loop env fuel ifname timeout start w.

(** ConfigureInterface: on Windows, this is not implemented. *)
Definition ConfigureInterface (ifname : string) (netconf : option NetConf)
  : option error :=
  Some (errors_New
    "ConfigureInterface is not implemented on Windows; use netsh or Windows API instead").

End netboot.

(** ** Package [client4] *)

Module client4.

(** MaxUDPReceivedPacketSize is the (arbitrary) maximum UDP packet size
    supported by this library. *)
Definition MaxUDPReceivedPacketSize : nat := Z.to_nat 8192.

Definition DefaultReadTimeout : time.Duration := 3 * time.Second.
Definition DefaultWriteTimeout : time.Duration := 3 * time.Second.

(** Client is the object that actually performs the DHCP exchange. *)
Record Client := mkClient {
  ReadTimeout : time.Duration;
  WriteTimeout : time.Duration;
  RemoteAddr : option net.Addr;
  LocalAddr : option net.Addr
}.

Definition NewClient : Client :=
  mkClient DefaultReadTimeout DefaultWriteTimeout None None.

Definition toUDPAddr (addr : option net.Addr) (defaultAddr : net.UDPAddr)
  : net.UDPAddr + error :=
  let converted : net.UDPAddr + error :=
    match addr with
    | None => inl defaultAddr
    | Some (net.Addr_UDP a) => inl a
    | Some (net.Addr_other typeName) =>
        inr (fmt_Errorf "could not convert to net.UDPAddr, got %T instead"
               [arg_type typeName])
    end in
  match converted with
  | inr err => inr err
  | inl uaddr =>
      match net.To4 (net.UDPAddr_IP uaddr) with
      | None =>
          inr (fmt_Errorf "'%s' is not a valid IPv4 address"
                 [arg_IP (net.UDPAddr_IP uaddr)])
      | Some _ => inl uaddr
      end
  end.

Definition getLocalUDPAddr (c : Client) : net.UDPAddr + error :=
  let defaultLocalAddr := net.mkUDPAddr net.IPv4zero dhcpv4.ClientPort in
  match toUDPAddr (LocalAddr c) defaultLocalAddr with
  | inr err => inr (fmt_Errorf "Invalid local address: %s" [arg_error err])
  | inl laddr => inl laddr
  end.

Definition getRemoteUDPAddr (c : Client) : net.UDPAddr + error :=
  let defaultRemoteAddr := net.mkUDPAddr net.IPv4bcast dhcpv4.ServerPort in
  match toUDPAddr (RemoteAddr c) defaultRemoteAddr with
  | inr err => inr (fmt_Errorf "Invalid remote address: %s" [arg_error err])
  | inl raddr => inl raddr
  end.

(** *** The UDP socket

    A socket is the record of what the operating system will answer.
    Each of the deadline setters and [WriteTo] takes its outcome from the
    head of its own list (an exhausted list means success).  [incoming]
    holds, in order of arrival, what successive reads deliver: a datagram
    or an error; once it is exhausted nothing more arrives and a read
    ends with the deadline error.  [written] logs the datagrams sent, and
    the two deadline fields the timeouts last armed. *)
Record UDPConn := mkUDPConn {
  setWriteDeadline_results : list (option error);
  writeTo_results : list (option error);
  setReadDeadline_results : list (option error);
  incoming : list (list byte + error);
  written : list (list byte * net.UDPAddr);
  writeDeadline : option time.Duration;
  readDeadline : option time.Duration
}.

Definition next_result (l : list (option error)) : option error * list (option error) :=
  match l with
  | [] => (None, [])
  | r :: l' => (r, l')
  end.

(** [conn.SetWriteDeadline(time.Now().Add(d))]: the deadline is kept as
    its distance [d] from the instant of the call. *)
Definition SetWriteDeadline (conn : UDPConn) (d : time.Duration)
  : option error * UDPConn :=
  let '(r, rest) := next_result (setWriteDeadline_results conn) in
  (r, mkUDPConn rest (writeTo_results conn) (setReadDeadline_results conn)
        (incoming conn) (written conn)
        (match r with None => Some d | Some _ => writeDeadline conn end)
        (readDeadline conn)).

Definition SetReadDeadline (conn : UDPConn) (d : time.Duration)
  : option error * UDPConn :=
  let '(r, rest) := next_result (setReadDeadline_results conn) in
  (r, mkUDPConn (setWriteDeadline_results conn) (writeTo_results conn) rest
        (incoming conn) (written conn) (writeDeadline conn)
        (match r with None => Some d | Some _ => readDeadline conn end)).

Definition WriteTo (conn : UDPConn) (b : list byte) (addr : net.UDPAddr)
  : option error * UDPConn :=
  let '(r, rest) := next_result (writeTo_results conn) in
  (r, mkUDPConn (setWriteDeadline_results conn) rest (setReadDeadline_results conn)
        (incoming conn)
        (match r with None => written conn ++ [(b, addr)] | Some _ => written conn end)
        (writeDeadline conn) (readDeadline conn)).

Definition set_incoming (conn : UDPConn) (q : list (list byte + error)) : UDPConn :=
  mkUDPConn (setWriteDeadline_results conn) (writeTo_results conn)
    (setReadDeadline_results conn) q (written conn)
    (writeDeadline conn) (readDeadline conn).

Section WithCodec.

(** The codec and socket constructors, which live outside the sources
    embedded here. *)
Variable FromBytes : list byte -> dhcpv4.DHCPv4 + error.
Variable ToBytes : dhcpv4.DHCPv4 -> list byte.
Variable NewDiscoveryForInterface :
  string -> list dhcpv4.Modifier -> dhcpv4.DHCPv4 + error.
Variable NewRequestFromOffer :
  dhcpv4.DHCPv4 -> list dhcpv4.Modifier -> dhcpv4.DHCPv4 + error.
Variable ListenUDP : string -> net.UDPAddr -> UDPConn + error.

(** The receive loop of [sendReceive], [for { ... }], run on what the
    socket has to deliver.  Each round is one [conn.ReadFromUDP(buf)]
    into a fresh buffer of [MaxUDPReceivedPacketSize] bytes; a read stores
    no more than the buffer holds, and [buf[:n]] is the part it filled.
    The result comes with what is left unread. *)
Fixpoint receive_loop (packet : dhcpv4.DHCPv4) (messageType : dhcpv4.MessageType_t)
    (incoming : list (list byte + error))
  : (dhcpv4.DHCPv4 + error) * list (list byte + error) :=
  match incoming with
  | [] =>
      (inr (fmt_Errorf "failed to receive DHCP response: %v"
              [arg_error ErrDeadlineExceeded]), [])
  | inr err :: rest =>
      (inr (fmt_Errorf "failed to receive DHCP response: %v" [arg_error err]), rest)
  | inl datagram :: rest =>
      let buf_n := firstn MaxUDPReceivedPacketSize datagram in
      match FromBytes buf_n with
      | inr err =>
          (* log.Printf("Error parsing DHCPv4 response: %v", err) *)
          receive_loop packet messageType rest
      | inl response =>
          (* Check transaction ID *)
          if negb (dhcpv4.TxID_eqb (dhcpv4.TransactionID response)
                                   (dhcpv4.TransactionID packet))
          then receive_loop packet messageType rest
          (* Check opcode *)
          else if negb (N.eqb (dhcpv4.OpCode response) dhcpv4.OpcodeBootReply)
          then receive_loop packet messageType rest
          (* Check message type if specified *)
          else if negb (N.eqb messageType dhcpv4.MessageTypeNone)
                  && negb (N.eqb (dhcpv4.MessageType response) messageType)
          then receive_loop packet messageType rest
          else (inl response, rest)
      end
  end.

(** sendReceive sends a DHCP packet and waits for a response. *)
Definition sendReceive (c : Client) (conn : UDPConn) (packet : dhcpv4.DHCPv4)
    (raddr : net.UDPAddr) (messageType : dhcpv4.MessageType_t)
  : (dhcpv4.DHCPv4 + error) * UDPConn :=
  (* Set write deadline *)
  match SetWriteDeadline conn (WriteTimeout c) with
  | (Some err, conn) => (inr err, conn)
  | (None, conn) =>
      (* Send the packet *)
      match WriteTo conn (ToBytes packet) raddr with
      | (Some err, conn) =>
          (inr (fmt_Errorf "failed to send DHCP packet: %v" [arg_error err]), conn)
      | (None, conn) =>
          (* Set read deadline *)
          match SetReadDeadline conn (ReadTimeout c) with
          | (Some err, conn) => (inr err, conn)
          | (None, conn) =>
              (* Receive response *)
              let '(r, rest) := receive_loop packet messageType (incoming conn) in
              (r, set_incoming conn rest)
          end
      end
  end.

(** Exchange runs a full DORA transaction: Discover, Offer, Request,
    Acknowledge, over UDP.  Does not retry in case of failures.  The
    socket is closed when the function returns, so only the
    conversation and the error leave it. *)
Definition Exchange (c : Client) (ifname : string)
    (modifiers : list dhcpv4.Modifier)
  : list dhcpv4.DHCPv4 * option error :=
  let conversation : list dhcpv4.DHCPv4 := [] in
  match getRemoteUDPAddr c with
  | inr err => ([], Some err)
  | inl raddr =>
  match getLocalUDPAddr c with
  | inr err => ([], Some err)
  | inl laddr =>
  (* Listen on all interfaces since we can't bind to a specific one *)
  match ListenUDP "udp4" (net.mkUDPAddr net.IPv4zero (net.Port laddr)) with
  | inr err =>
      (conversation, Some (fmt_Errorf "failed to listen on UDP: %v" [arg_error err]))
  | inl conn =>
  (* Discover *)
  match NewDiscoveryForInterface ifname modifiers with
  | inr err => (conversation, Some err)
  | inl discover =>
  let conversation := conversation ++ [discover] in
  (* Offer *)
  match sendReceive c conn discover raddr dhcpv4.MessageTypeOffer with
  | (inr err, _) => (conversation, Some err)
  | (inl offer, conn) =>
  let conversation := conversation ++ [offer] in
  (* Request *)
  match NewRequestFromOffer offer modifiers with
  | inr err => (conversation, Some err)
  | inl request =>
  let conversation := conversation ++ [request] in
  (* Ack *)
  match sendReceive c conn request raddr dhcpv4.MessageTypeAck with
  | (inr err, _) => (conversation, Some err)
  | (inl ack, _) =>
  let conversation := conversation ++ [ack] in
  (conversation, None)
  end end end end end end end.

(** Modelled from the spec: the response filter of section 4.2,
    [accept(message, expectedTxID, expectedOpcode, expectedMsgType)],
    where the wildcard message type "none" accepts every type. *)
Definition accept (message : dhcpv4.DHCPv4) (expectedTxID : dhcpv4.TxID)
    (expectedOpcode : dhcpv4.OpcodeType) (expectedMsgType : dhcpv4.MessageType_t)
  : bool :=
  dhcpv4.TxID_eqb (dhcpv4.TransactionID message) expectedTxID
  && N.eqb (dhcpv4.OpCode message) expectedOpcode
  && (N.eqb expectedMsgType dhcpv4.MessageTypeNone
      || N.eqb (dhcpv4.MessageType message) expectedMsgType).

(** A received datagram is kept when it parses to a message that
    passes the filter for the request [packet], and dropped otherwise. *)
Definition kept (packet : dhcpv4.DHCPv4) (messageType : dhcpv4.MessageType_t)
    (datagram : list byte) : bool :=
  match FromBytes (firstn MaxUDPReceivedPacketSize datagram) with
  | inr _ => false
  | inl response =>
      accept response (dhcpv4.TransactionID packet) dhcpv4.OpcodeBootReply messageType
  end.

End WithCodec.

End client4.

(** ** The test server (package [main] of the DHCPv4 server example) *)

Module dhcpserver4.

(** The command-line flags, after [flag.Parse()]. *)
Record Flags := mkFlags {
  ifname : string;
  serverIP : string;
  rangeStart : string;
  rangeEnd : string;
  mask : string;
  router : string;
  dns : string;
  leaseTime : Z
}.

(** The declared defaults of the flags. *)
Definition default_flags : Flags :=
  mkFlags "Ethernet" "192.168.1.1" "192.168.1.100" "192.168.1.200"
    "255.255.255.0" "192.168.1.1" "8.8.8.8" 3600.

(** How a call of [handler] ends: it returns, leaving the package variable
    [nextIP] at some value and having written at most one datagram to the
    peer, or it panics (an index out of range). *)
Inductive outcome :=
| Done (nextIP : option net.IP) (sent : option (list byte * net.Addr))
| Panic.

(** [ip.To4()] on a possibly nil [net.IP]; the nil IP has no four-byte
    form. *)
Definition To4_of (ip : option net.IP) : option net.IP :=
  match ip with
  | Some ip => net.To4 ip
  | None => None
  end.

(** [allocatedIP := make(net.IP, 4); copy(allocatedIP, src)]: as many
    bytes as both slices have are copied, the others stay zero. *)
Definition copy4 (src : option net.IP) : net.IP :=
  firstn 4 (match src with Some s => s | None => [] end ++ repeat (B 0) 4).

(** [b++] on a byte wraps around. *)
Definition incr (b : byte) : byte := B ((Byte.to_N b + 1) mod 256).

Section Handler.

(** [net.ParseIP], nil on text that is no address; the codec's reply
    constructor, its modifiers and accessor; the serialiser. *)
Variable ParseIP : string -> option net.IP.
Variable NewReplyFromRequest :
  dhcpv4.DHCPv4 -> list dhcpv4.Modifier -> dhcpv4.DHCPv4 + error.
Variable WithMessageType : dhcpv4.MessageType_t -> dhcpv4.Modifier.
Variable WithServerIP : option net.IP -> dhcpv4.Modifier.
Variable WithYourIP : option net.IP -> dhcpv4.Modifier.
Variable WithNetmask : option net.IPMask -> dhcpv4.Modifier.
Variable WithRouter : list (option net.IP) -> dhcpv4.Modifier.
Variable WithDNS : list (option net.IP) -> dhcpv4.Modifier.
Variable WithLeaseTime : Z -> dhcpv4.Modifier.
Variable RequestedIPAddress : dhcpv4.DHCPv4 -> option net.IP.
Variable ToBytes : dhcpv4.DHCPv4 -> list byte.

(** The modifiers both branches of [handler] pass to
    [NewReplyFromRequest]; they differ in the message type and in the
    address given to [WithYourIP].  The conversion of the lease time to
    [uint32] keeps the low 32 bits. *)
Definition reply_modifiers (fl : Flags) (messageType : dhcpv4.MessageType_t)
    (yourIP : option net.IP) : list dhcpv4.Modifier :=
  [ WithMessageType messageType;
    WithServerIP (ParseIP (serverIP fl));
    WithYourIP yourIP;
    WithNetmask (To4_of (ParseIP (mask fl)));
    WithRouter [ParseIP (router fl)];
    WithDNS [ParseIP (dns fl)];
    WithLeaseTime (leaseTime fl mod 2 ^ 32) ].

(** [handler], with the package variable [nextIP] passed in and out.  A
    failed [conn.WriteTo] is only logged, so the datagram counts as sent. *)
Definition handler (fl : Flags) (nextIP : option net.IP) (peer : net.Addr)
    (m : dhcpv4.DHCPv4) : outcome :=
  if N.eqb (dhcpv4.MessageType m) dhcpv4.MessageTypeDiscover then
    (* Allocate an IP (simple incrementing, not production-ready) *)
    let nextIP :=
      match nextIP with
      | None => To4_of (ParseIP (rangeStart fl))
      | Some _ => nextIP
      end in
    let allocatedIP := copy4 nextIP in
    match NewReplyFromRequest m
            (reply_modifiers fl dhcpv4.MessageTypeOffer (Some allocatedIP)) with
    | inr err => Done nextIP None
    | inl resp => Done nextIP (Some (ToBytes resp, peer))
    end
  else if N.eqb (dhcpv4.MessageType m) dhcpv4.MessageTypeRequest then
    (* For simplicity, just ACK whatever was requested *)
    let requestedIP :=
      match RequestedIPAddress m with
      | None => dhcpv4.YourIPAddr m
      | Some ip => Some ip
      end in
    match NewReplyFromRequest m
            (reply_modifiers fl dhcpv4.MessageTypeAck requestedIP) with
    | inr err => Done nextIP None
    | inl resp =>
        (* Increment next IP for next client: nextIP[3]++ *)
        match nextIP with
        | None => Panic
        | Some ip =>
            match nth_error ip 3 with
            | None => Panic
            | Some b =>
                let ip := firstn 3 ip ++ incr b :: skipn 4 ip in
                match To4_of (ParseIP (rangeEnd fl)) with
                | None => Panic
                | Some last =>
                    match nth_error last 3 with
                    | None => Panic
                    | Some e =>
                        let nextIP :=
                          if (Byte.to_N e <? Byte.to_N (incr b))%N
                          then To4_of (ParseIP (rangeStart fl))
                          else Some ip in
                        Done nextIP (Some (ToBytes resp, peer))
                    end
                end
            end
        end
    end
  else
    (* Ignoring message type *)
    Done nextIP None.

End Handler.

End dhcpserver4.

(** ** Vocabulary for the statements about the receive loop *)

(** How a run of the receive loop on [incoming] ends: with the first
    datagram that is kept, every one before it having been dropped; with
    the first read error, every datagram before it having been dropped; or,
    every datagram having been dropped, with the deadline error. *)
Inductive outcome (FromBytes : list byte -> dhcpv4.DHCPv4 + error)
    (packet : dhcpv4.DHCPv4) (messageType : dhcpv4.MessageType_t)
    (incoming : list (list byte + error))
  : (dhcpv4.DHCPv4 + error) * list (list byte + error) -> Prop :=
| matched junk datagram response rest :
    incoming = map inl junk ++ inl datagram :: rest ->
    forallb (fun dg => negb (client4.kept FromBytes packet messageType dg)) junk = true ->
    FromBytes (firstn client4.MaxUDPReceivedPacketSize datagram) = inl response ->
    client4.kept FromBytes packet messageType datagram = true ->
    outcome FromBytes packet messageType incoming (inl response, rest)
| read_failed junk cause rest :
    incoming = map inl junk ++ inr cause :: rest ->
    forallb (fun dg => negb (client4.kept FromBytes packet messageType dg)) junk = true ->
    outcome FromBytes packet messageType incoming
      (inr (fmt_Errorf "failed to receive DHCP response: %v" [arg_error cause]), rest)
| deadline_elapsed junk :
    incoming = map inl junk ->
    forallb (fun dg => negb (client4.kept FromBytes packet messageType dg)) junk = true ->
    outcome FromBytes packet messageType incoming
      (inr (fmt_Errorf "failed to receive DHCP response: %v"
              [arg_error ErrDeadlineExceeded]), []).

(** The socket lets the next packet out: its next write-deadline, write and
    read-deadline calls succeed. *)
Definition sends_ok (conn : client4.UDPConn) : Prop :=
  fst (client4.next_result (client4.setWriteDeadline_results conn)) = None
  /\ fst (client4.next_result (client4.writeTo_results conn)) = None
  /\ fst (client4.next_result (client4.setReadDeadline_results conn)) = None.

(** The socket delivers no reply that is kept before the read deadline
    elapses: every datagram it holds is dropped, and reading then ends with
    [cause], the deadline error. *)
Inductive no_reply_until_deadline (kept : list byte -> bool)
  : list (list byte + error) -> error -> Prop :=
| nothing_more junk :
    forallb (fun dg => negb (kept dg)) junk = true ->
    no_reply_until_deadline kept (map inl junk) ErrDeadlineExceeded
| read_times_out junk text tail :
    forallb (fun dg => negb (kept dg)) junk = true ->
    no_reply_until_deadline kept
      (map inl junk ++ inr (os_error text true) :: tail) (os_error text true).

(** A conversation in step order: the Discover built for the interface;
    then an Offer that passes the filter for it; then the Request built
    from that Offer; then an Ack that passes the filter for the Request;
    and nothing after. *)
Definition conversation_ok
    (NewDiscoveryForInterface : string -> list dhcpv4.Modifier -> dhcpv4.DHCPv4 + error)
    (NewRequestFromOffer :
       dhcpv4.DHCPv4 -> list dhcpv4.Modifier -> dhcpv4.DHCPv4 + error)
    (ifname : string) (modifiers : list dhcpv4.Modifier)
    (conversation : list dhcpv4.DHCPv4) : Prop :=
  match conversation with
  | [] => True
  | discover :: after_discover =>
      NewDiscoveryForInterface ifname modifiers = inl discover
      /\ match after_discover with
         | [] => True
         | offer :: after_offer =>
             client4.accept offer (dhcpv4.TransactionID discover)
               dhcpv4.OpcodeBootReply dhcpv4.MessageTypeOffer = true
             /\ match after_offer with
                | [] => True
                | request :: after_request =>
                    NewRequestFromOffer offer modifiers = inl request
                    /\ match after_request with
                       | [] => True
                       | [ack] =>
                           client4.accept ack (dhcpv4.TransactionID request)
                             dhcpv4.OpcodeBootReply dhcpv4.MessageTypeAck = true
                       | _ :: _ :: _ => False
                       end
                end
         end
  end.

(** ** Closed forms used to state the results of extraction *)

(** The address record [GetNetConfFromPacketv6] builds for one bound
    address. *)
Definition addrconf6 (iaaddr : dhcpv6.OptIAAddress) : netboot.AddrConf :=
  netboot.mkAddrConf (net.mkIPNet (dhcpv6.IPv6Addr iaaddr) (net.CIDRMask 128 128))
    (dhcpv6.PreferredLifetime iaaddr) (dhcpv6.ValidLifetime iaaddr).

(** The record v6 extraction returns for a reply whose IA_NA is [iana]. *)
Definition netconf6 (d : dhcpv6.Message) (iana : dhcpv6.OptIANA) : netboot.NetConf :=
  netboot.mkNetConf
    (map addrconf6 (dhcpv6.Addresses (dhcpv6.IANA_Options iana)))
    (dhcpv6.DNS (dhcpv6.Options d))
    (match dhcpv6.DomainSearchList (dhcpv6.Options d) with
     | Some domains => rfc1035label.Labels_ domains
     | None => []
     end)
    []
    (dhcpv6.NTPServers (dhcpv6.Options d)).

(** The record v4 extraction returns when every check passes. *)
Definition netconf4 (d : dhcpv4.DHCPv4) (ipAddr : net.IP) (netmask : net.IPMask)
  : netboot.NetConf :=
  netboot.mkNetConf
    [netboot.mkAddrConf (net.mkIPNet ipAddr (Some netmask)) 0 (dhcpv4.IPAddressLeaseTime d 0)]
    (dhcpv4.DNS d)
    (match dhcpv4.DomainSearch d with
     | Some l => rfc1035label.Labels_ l
     | None => []
     end)
    (dhcpv4.Router d)
    (dhcpv4.NTPServers d).

(** ** Sample messages *)

Module Samples.

Definition ip4 (a b c d : N) : net.IP := [B a; B b; B c; B d].

Definition with_options (o : dhcpv4.Options) (d : dhcpv4.DHCPv4) : dhcpv4.DHCPv4 :=
  dhcpv4.mkDHCPv4 (dhcpv4.OpCode d) (dhcpv4.TransactionID d) (dhcpv4.YourIPAddr d) o.

Definition with_search (s : option rfc1035label.Labels) (d : dhcpv4.DHCPv4)
  : dhcpv4.DHCPv4 :=
  let o := dhcpv4.Options_ d in
  with_options
    (dhcpv4.mkOptions (dhcpv4.optMessageType o) (dhcpv4.optSubnetMask o)
       (dhcpv4.optIPAddressLeaseTime o) (dhcpv4.optDNS o) s
       (dhcpv4.optRouter o) (dhcpv4.optNTPServers o)) d.

Definition with_mask (m : option net.IPMask) (d : dhcpv4.DHCPv4) : dhcpv4.DHCPv4 :=
  let o := dhcpv4.Options_ d in
  with_options
    (dhcpv4.mkOptions (dhcpv4.optMessageType o) m
       (dhcpv4.optIPAddressLeaseTime o) (dhcpv4.optDNS o) (dhcpv4.optDomainSearch o)
       (dhcpv4.optRouter o) (dhcpv4.optNTPServers o)) d.

Definition with_yiaddr (ip : option net.IP) (d : dhcpv4.DHCPv4) : dhcpv4.DHCPv4 :=
  dhcpv4.mkDHCPv4 (dhcpv4.OpCode d) (dhcpv4.TransactionID d) ip (dhcpv4.Options_ d).

Definition xid1 : dhcpv4.TxID := (B 222, B 173, B 190, B 239).
Definition xid2 : dhcpv4.TxID := (B 1, B 2, B 3, B 4).

(** The acknowledgement of section 8: 192.0.2.50/24, lease 3600 s,
    router 192.0.2.1, DNS server 8.8.8.8. *)
Definition ack4 : dhcpv4.DHCPv4 :=
  dhcpv4.mkDHCPv4 dhcpv4.OpcodeBootReply xid1 (Some (ip4 192 0 2 50))
    (dhcpv4.mkOptions (Some dhcpv4.MessageTypeAck)
       (Some (ip4 255 255 255 0)) (Some (3600 * time.Second))
       [ip4 8 8 8 8] None [ip4 192 0 2 1] []).

Definition ack4_empty_search : dhcpv4.DHCPv4 :=
  with_search (Some (rfc1035label.mkLabels [])) ack4.

Definition ack4_no_mask : dhcpv4.DHCPv4 := with_mask None ack4.
Definition ack4_zero_mask : dhcpv4.DHCPv4 := with_mask (Some (ip4 0 0 0 0)) ack4.
Definition ack4_zero_yiaddr : dhcpv4.DHCPv4 := with_yiaddr (Some (ip4 0 0 0 0)) ack4.
Definition ack4_nil_yiaddr_empty_search : dhcpv4.DHCPv4 :=
  with_yiaddr None ack4_empty_search.

Definition addr6 (last : N) : net.IP :=
  [B 32; B 1; B 13; B 184; B 0; B 0; B 0; B 0;
   B 0; B 0; B 0; B 0; B 0; B 0; B 0; B last].

(** A v6 reply whose IA_NA binds two addresses with different lifetimes. *)
Definition reply6 : dhcpv6.Message :=
  dhcpv6.mkMessage 7%N (B 1, B 2, B 3)
    (dhcpv6.mkMessageOptions
       (Some (dhcpv6.mkOptIANA (1800 * time.Second) (2880 * time.Second)
                (dhcpv6.mkIdentityOptions
                   [ dhcpv6.mkOptIAAddress (addr6 1) (3600 * time.Second) (7200 * time.Second);
                     dhcpv6.mkOptIAAddress (addr6 2) (60 * time.Second) (120 * time.Second) ])))
       [] None []).

Definition with_search6 (s : option rfc1035label.Labels) (d : dhcpv6.Message)
  : dhcpv6.Message :=
  let o := dhcpv6.Options d in
  dhcpv6.mkMessage (dhcpv6.MessageType d) (dhcpv6.TransactionID d)
    (dhcpv6.mkMessageOptions (dhcpv6.OneIANA o) (dhcpv6.DNS o) s (dhcpv6.NTPServers o)).

Definition reply6_empty_search : dhcpv6.Message :=
  with_search6 (Some (rfc1035label.mkLabels [])) reply6.

Definition eth0 : net.Interface := net.mkInterface 3 "eth0" 19%N.

(** An operating system whose clock stands at 1 s and advances 1 ms per
    reading, and in which [eth0] is the only interface, and is up. *)
Definition os_eth0_up : netboot.Env :=
  netboot.mkEnv
    (fun k => time.Second + Z.of_nat k * time.Millisecond)
    (fun _ name =>
       if String.eqb name "eth0" then inl eth0
       else inr (errors_New "route ip+net: no such network interface")).

Definition eth0_down : net.Interface := net.mkInterface 3 "eth0" 18%N.

(** An operating system whose clock advances 100 ms per reading, and in
    which [eth0] is down at the first two lookups and up from the third. *)
Definition os_eth0_late : netboot.Env :=
  netboot.mkEnv
    (fun k => time.Second + Z.of_nat k * (100 * time.Millisecond))
    (fun k name =>
       if String.eqb name "eth0"
       then inl (if Nat.ltb k 2 then eth0_down else eth0)
       else inr (errors_New "route ip+net: no such network interface")).

(** The same clock, and [eth0] down at every lookup. *)
Definition os_eth0_down : netboot.Env :=
  netboot.mkEnv
    (fun k => time.Second + Z.of_nat k * (100 * time.Millisecond))
    (fun _ name =>
       if String.eqb name "eth0" then inl eth0_down
       else inr (errors_New "route ip+net: no such network interface")).

End Samples.

(** ** A small codec and network, to run the exchange on *)

Module Toy.

(** Six bytes on the wire: opcode, the four bytes of the transaction
    identifier, message type (0 when there is none). *)
Definition parse (b : list byte) : dhcpv4.DHCPv4 + error :=
  match b with
  | [op; x0; x1; x2; x3; mt] =>
      inl (dhcpv4.mkDHCPv4 (Byte.to_N op) (x0, x1, x2, x3) None
             (dhcpv4.mkOptions
                (if N.eqb (Byte.to_N mt) 0 then None else Some (Byte.to_N mt))
                None None [] None [] []))
  | _ => inr (errors_New "buffer too short")
  end.

Definition serialize (d : dhcpv4.DHCPv4) : list byte :=
  let '(x0, x1, x2, x3) := dhcpv4.TransactionID d in
  [B (dhcpv4.OpCode d); x0; x1; x2; x3; B (dhcpv4.MessageType d)].

Definition message (op : dhcpv4.OpcodeType) (xid : dhcpv4.TxID)
    (mt : dhcpv4.MessageType_t) : dhcpv4.DHCPv4 :=
  dhcpv4.mkDHCPv4 op xid None
    (dhcpv4.mkOptions (Some mt) None None [] None [] []).

Definition discovery (ifname : string) (modifiers : list dhcpv4.Modifier)
  : dhcpv4.DHCPv4 + error :=
  inl (fold_left (fun d m => m d) modifiers
         (message dhcpv4.OpcodeBootRequest Samples.xid1 dhcpv4.MessageTypeDiscover)).

Definition request_from (offer : dhcpv4.DHCPv4) (modifiers : list dhcpv4.Modifier)
  : dhcpv4.DHCPv4 + error :=
  inl (fold_left (fun d m => m d) modifiers
         (message dhcpv4.OpcodeBootRequest (dhcpv4.TransactionID offer)
            dhcpv4.MessageTypeRequest)).

Definition discover : dhcpv4.DHCPv4 :=
  message dhcpv4.OpcodeBootRequest Samples.xid1 dhcpv4.MessageTypeDiscover.
Definition offer : dhcpv4.DHCPv4 :=
  message dhcpv4.OpcodeBootReply Samples.xid1 dhcpv4.MessageTypeOffer.
Definition request : dhcpv4.DHCPv4 :=
  message dhcpv4.OpcodeBootRequest Samples.xid1 dhcpv4.MessageTypeRequest.
Definition ack : dhcpv4.DHCPv4 :=
  message dhcpv4.OpcodeBootReply Samples.xid1 dhcpv4.MessageTypeAck.
Definition foreign_offer : dhcpv4.DHCPv4 :=
  message dhcpv4.OpcodeBootReply Samples.xid2 dhcpv4.MessageTypeOffer.
Definition foreign_ack : dhcpv4.DHCPv4 :=
  message dhcpv4.OpcodeBootReply Samples.xid2 dhcpv4.MessageTypeAck.

(** Traffic in which the offer arrives among noise, and no acknowledgement
    for our transaction ever does. *)
Definition traffic_without_ack : list (list byte + error) :=
  [ inl (serialize foreign_offer);
    inl [B 1; B 2];
    inl (serialize discover);
    inl (serialize offer);
    inl (serialize offer);
    inl (serialize foreign_ack);
    inl [] ].

Definition socket (q : list (list byte + error)) : client4.UDPConn :=
  client4.mkUDPConn [] [] [] q [] None None.

Definition listen (q : list (list byte + error)) (network : string)
    (laddr : net.UDPAddr) : client4.UDPConn + error :=
  inl (socket q).

End Toy.

(** ** A small codec for the test server *)

Module ToyServer.

(** The addresses the default flags name, in the sixteen-byte form
    [net.ParseIP] gives to dotted-quad text. *)
Definition parse_ip (text : string) : option net.IP :=
  if String.eqb text "192.168.1.1" then Some (net.IPv4 (B 192) (B 168) (B 1) (B 1))
  else if String.eqb text "192.168.1.100" then Some (net.IPv4 (B 192) (B 168) (B 1) (B 100))
  else if String.eqb text "192.168.1.200" then Some (net.IPv4 (B 192) (B 168) (B 1) (B 200))
  else if String.eqb text "255.255.255.0" then Some (net.IPv4 (B 255) (B 255) (B 255) (B 0))
  else if String.eqb text "8.8.8.8" then Some (net.IPv4 (B 8) (B 8) (B 8) (B 8))
  else None.

Definition with_type (mt : dhcpv4.MessageType_t) : dhcpv4.Modifier :=
  fun d =>
    let o := dhcpv4.Options_ d in
    Samples.with_options
      (dhcpv4.mkOptions (Some mt) (dhcpv4.optSubnetMask o)
         (dhcpv4.optIPAddressLeaseTime o) (dhcpv4.optDNS o) (dhcpv4.optDomainSearch o)
         (dhcpv4.optRouter o) (dhcpv4.optNTPServers o)) d.

Definition with_yiaddr (ip : option net.IP) : dhcpv4.Modifier :=
  Samples.with_yiaddr ip.

Definition keep {A : Type} (_ : A) : dhcpv4.Modifier := fun d => d.

Definition reply (m : dhcpv4.DHCPv4) (modifiers : list dhcpv4.Modifier)
  : dhcpv4.DHCPv4 + error :=
  inl (fold_left (fun d f => f d) modifiers
         (dhcpv4.mkDHCPv4 dhcpv4.OpcodeBootReply (dhcpv4.TransactionID m) None
            (dhcpv4.mkOptions None None None [] None [] []))).

Definition requested (m : dhcpv4.DHCPv4) : option net.IP := None.

(** The test server's handler on this codec, with the default flags. *)
Definition handler : option net.IP -> net.Addr -> dhcpv4.DHCPv4 -> dhcpserver4.outcome :=
  dhcpserver4.handler parse_ip reply with_type keep with_yiaddr keep keep keep keep
    requested Toy.serialize dhcpserver4.default_flags.

Definition peer : net.Addr := net.Addr_UDP (net.mkUDPAddr (Samples.ip4 0 0 0 0) 68).

End ToyServer.

(** * Properties *)

(** ** Facts about package [net] *)

Lemma bytes_Equal_eq (a b : list byte) : bytes_Equal a b = true <-> a = b.
Proof.
  revert b; induction a as [|x a IH]; intros [|y b]; simpl; split;
    try discriminate; try reflexivity.
  - intros [Hxy Hab]%andb_true_iff.
    apply Byte.byte_dec_bl in Hxy. apply IH in Hab. congruence.
  - intros [= -> ->]. apply andb_true_iff; split.
    + now apply Byte.byte_dec_lb.
    + now apply IH.
Qed.

(** Eight rounds of the bit-counting loop exhaust any byte: the loop's exit
    condition holds for what is left. *)
Lemma leading_ones_exits (v : byte) (n : Z) :
  N.land (fst (net.leading_ones 8 (Byte.to_N v) n)) 128 = 0%N.
Proof. destruct v; reflexivity. Qed.

(** Both forms of 0.0.0.0 are [Equal] to [net.IPv4zero]. *)
Lemma Equal_IPv4zero_forms :
  net.Equal (Samples.ip4 0 0 0 0) net.IPv4zero = true
  /\ net.Equal net.IPv4zero net.IPv4zero = true.
Proof. split; reflexivity. Qed.

Lemma Size_examples :
  net.Size (Samples.ip4 255 255 255 0) = (24, 32)
  /\ net.Size (Samples.ip4 255 255 240 0) = (20, 32)
  /\ net.Size (Samples.ip4 0 0 0 0) = (0, 32)
  /\ net.Size (Samples.ip4 255 0 255 0) = (0, 0).
Proof. repeat split; reflexivity. Qed.

(** [net.CIDRMask(128, 128)] is the sixteen-byte all-ones mask, of prefix
    width 128 out of 128. *)
Lemma CIDRMask_128 :
  net.CIDRMask 128 128 = Some (repeat (B 255) 16)
  /\ option_map net.Size (net.CIDRMask 128 128) = Some (128, 128).
Proof. split; reflexivity. Qed.

(** ** Configuration extraction *)

Section Extraction.

Import netboot.

(** The [append] loop over the bound addresses builds the list of their
    records, in order, behind what was there. *)
Lemma append_loop_map (l : list dhcpv6.OptIAAddress) (nc : NetConf) :
  fold_left
    (fun netconf iaaddr =>
       set_Addresses netconf (Addresses netconf ++ [addrconf6 iaaddr]))
    l nc
  = set_Addresses nc (Addresses nc ++ map addrconf6 l).
Proof.
  revert nc; induction l as [|a l IH]; intros nc; simpl.
  - rewrite app_nil_r. now destruct nc.
  - rewrite IH. simpl. now rewrite <- app_assoc.
Qed.

(** What v6 extraction returns, in closed form. *)
Lemma GetNetConfFromPacketv6_eq (d : dhcpv6.Message) :
  GetNetConfFromPacketv6 d =
  match dhcpv6.OneIANA (dhcpv6.Options d) with
  | None => (None, Some (errors_New "no option IA NA found"))
  | Some iana => (Some (netconf6 d iana), None)
  end.
Proof.
  unfold GetNetConfFromPacketv6, netconf6.
  destruct (dhcpv6.OneIANA (dhcpv6.Options d)) as [iana|]; [|reflexivity].
  fold addrconf6. rewrite append_loop_map.
  now destruct (dhcpv6.DomainSearchList (dhcpv6.Options d)).
Qed.

(** What v4 extraction returns, check by check. *)
Lemma GetNetConfFromPacketv4_eq (d : dhcpv4.DHCPv4) :
  GetNetConfFromPacketv4 d =
  match dhcpv4.YourIPAddr d with
  | None => (None, Some (errors_New "ip address is null (0.0.0.0)"))
  | Some ipAddr =>
      if net.Equal ipAddr net.IPv4zero
      then (None, Some (errors_New "ip address is null (0.0.0.0)"))
      else
        match dhcpv4.SubnetMask d with
        | None => (None, Some (errors_New "no netmask option in response packet"))
        | Some netmask =>
            if fst (net.Size netmask) =? 0
            then (None, Some (errors_New
                    "netmask extracted from OptSubnetMask options is null"))
            else
              match dhcpv4.DomainSearch d with
              | Some l =>
                  match rfc1035label.Labels_ l with
                  | [] => (None, Some (errors_New "dns search list is empty"))
                  | _ :: _ => (Some (netconf4 d ipAddr netmask), None)
                  end
              | None => (Some (netconf4 d ipAddr netmask), None)
              end
        end
  end.
Proof.
  unfold GetNetConfFromPacketv4, netconf4.
  destruct (dhcpv4.YourIPAddr d) as [ip|]; [|reflexivity].
  destruct (net.Equal ip net.IPv4zero); [reflexivity|].
  destruct (dhcpv4.SubnetMask d) as [m|]; [|reflexivity].
  destruct (net.Size m) as [ones bits]; simpl fst.
  destruct (ones =? 0); [reflexivity|].
  destruct (dhcpv4.DomainSearch d) as [[labels]|]; [|reflexivity].
  now destruct labels.
Qed.

End Extraction.

(** ** Claims about [GetNetConfFromPacketv4] *)

(** C1, as amended.  For every v4 reply whose YourIPAddress is present and
    not equal to 0.0.0.0, whose subnet mask is present with non-zero prefix
    width, and whose domain-search option is absent or carries at least one
    label, extraction succeeds; the NetConf it returns has exactly one
    AddrConf, with the reply's address and mask, PreferredLifetime 0 and
    ValidLifetime the lease time (0 when the lease-time option is absent),
    and its Routers and DNSServers are what the accessors return. *)
Theorem C1_v4_success (d : dhcpv4.DHCPv4) (ip : net.IP) (m : net.IPMask) :
  dhcpv4.YourIPAddr d = Some ip ->
  net.Equal ip net.IPv4zero = false ->
  dhcpv4.SubnetMask d = Some m ->
  fst (net.Size m) <> 0 ->
  (forall l, dhcpv4.DomainSearch d = Some l -> rfc1035label.Labels_ l <> []) ->
  exists nc,
    netboot.GetNetConfFromPacketv4 d = (Some nc, None)
    /\ netboot.Addresses nc =
         [ netboot.mkAddrConf (net.mkIPNet ip (Some m)) 0
             (match dhcpv4.optIPAddressLeaseTime (dhcpv4.Options_ d) with
              | Some L => L
              | None => 0
              end) ]
    /\ netboot.Routers nc = dhcpv4.Router d
    /\ netboot.DNSServers nc = dhcpv4.DNS d.
Proof.
  intros Hip Hnz Hm Hw Hs.
  exists (netconf4 d ip m).
  rewrite GetNetConfFromPacketv4_eq, Hip, Hnz, Hm.
  apply Z.eqb_neq in Hw; rewrite Hw.
  split; [|now repeat split].
  destruct (dhcpv4.DomainSearch d) as [l|] eqn:Hl; [|reflexivity].
  specialize (Hs l eq_refl).
  destruct (rfc1035label.Labels_ l); [contradiction|reflexivity].
Qed.

(** The reply of section 8 yields 192.0.2.50/24 valid for 3600 s, router
    192.0.2.1 and DNS server 8.8.8.8. *)
Lemma C1_v4_success_witness :
  exists nc,
    netboot.GetNetConfFromPacketv4 Samples.ack4 = (Some nc, None)
    /\ netboot.Addresses nc =
         [ netboot.mkAddrConf
             (net.mkIPNet (Samples.ip4 192 0 2 50) (Some (Samples.ip4 255 255 255 0)))
             0 (3600 * time.Second) ]
    /\ netboot.Routers nc = [Samples.ip4 192 0 2 1]
    /\ netboot.DNSServers nc = [Samples.ip4 8 8 8 8].
Proof.
  apply (C1_v4_success Samples.ack4 (Samples.ip4 192 0 2 50) (Samples.ip4 255 255 255 0)).
  - reflexivity.
  - reflexivity.
  - reflexivity.
  - vm_compute; discriminate.
  - intros l H; vm_compute in H; discriminate.
Defined.

(** C1 as stated fails: a reply with a valid address, a /24 mask and a
    lease time, but whose domain-search option is present and empty, is
    rejected. *)
Lemma C1_counterexample :
  dhcpv4.YourIPAddr Samples.ack4_empty_search = Some (Samples.ip4 192 0 2 50)
  /\ net.Equal (Samples.ip4 192 0 2 50) net.IPv4zero = false
  /\ dhcpv4.SubnetMask Samples.ack4_empty_search = Some (Samples.ip4 255 255 255 0)
  /\ fst (net.Size (Samples.ip4 255 255 255 0)) = 24
  /\ dhcpv4.optIPAddressLeaseTime (dhcpv4.Options_ Samples.ack4_empty_search)
     = Some (3600 * time.Second)
  /\ netboot.GetNetConfFromPacketv4 Samples.ack4_empty_search
     = (None, Some (errors_New "dns search list is empty")).
Proof. repeat split; reflexivity. Qed.

(** C4.  A v4 reply whose YourIPAddress is nil, or equal to 0.0.0.0, is
    rejected with the MissingField error and no NetConf, whatever its
    options. *)
Theorem C4_v4_missing_address (d : dhcpv4.DHCPv4) :
  (dhcpv4.YourIPAddr d = None
   \/ exists ip, dhcpv4.YourIPAddr d = Some ip /\ net.Equal ip net.IPv4zero = true) ->
  netboot.GetNetConfFromPacketv4 d
    = (None, Some (errors_New "ip address is null (0.0.0.0)"))
  /\ kind_of (errors_New "ip address is null (0.0.0.0)") = Some MissingField.
Proof.
  intros H; split; [|reflexivity].
  rewrite GetNetConfFromPacketv4_eq.
  destruct H as [-> | (ip & -> & ->)]; reflexivity.
Qed.

Lemma C4_v4_missing_address_witness :
  (netboot.GetNetConfFromPacketv4 Samples.ack4_zero_yiaddr
     = (None, Some (errors_New "ip address is null (0.0.0.0)"))
   /\ kind_of (errors_New "ip address is null (0.0.0.0)") = Some MissingField)
  /\ (netboot.GetNetConfFromPacketv4 Samples.ack4_nil_yiaddr_empty_search
        = (None, Some (errors_New "ip address is null (0.0.0.0)"))
      /\ kind_of (errors_New "ip address is null (0.0.0.0)") = Some MissingField).
Proof.
  split.
  - apply (C4_v4_missing_address Samples.ack4_zero_yiaddr).
    right; exists (Samples.ip4 0 0 0 0); split; reflexivity.
  - apply (C4_v4_missing_address Samples.ack4_nil_yiaddr_empty_search).
    left; reflexivity.
Defined.

(** C5.  A v4 reply with a present, non-zero YourIPAddress is rejected with
    the MissingOption error when the subnet-mask option is absent, and with
    the InvalidValue error when the mask is present with zero prefix width;
    no NetConf is returned in either case. *)
Theorem C5_v4_mask_errors (d : dhcpv4.DHCPv4) (ip : net.IP) :
  dhcpv4.YourIPAddr d = Some ip ->
  net.Equal ip net.IPv4zero = false ->
  (dhcpv4.SubnetMask d = None ->
     netboot.GetNetConfFromPacketv4 d
       = (None, Some (errors_New "no netmask option in response packet"))
     /\ kind_of (errors_New "no netmask option in response packet")
        = Some MissingOption)
  /\ (forall m, dhcpv4.SubnetMask d = Some m -> fst (net.Size m) = 0 ->
        netboot.GetNetConfFromPacketv4 d
          = (None, Some (errors_New
               "netmask extracted from OptSubnetMask options is null"))
        /\ kind_of (errors_New "netmask extracted from OptSubnetMask options is null")
           = Some InvalidValue).
Proof.
  intros Hip Hnz; split.
  - intros Hm; split; [|reflexivity].
    now rewrite GetNetConfFromPacketv4_eq, Hip, Hnz, Hm.
  - intros m Hm Hw; split; [|reflexivity].
    now rewrite GetNetConfFromPacketv4_eq, Hip, Hnz, Hm, Hw.
Qed.

Lemma C5_v4_mask_errors_witness :
  (netboot.GetNetConfFromPacketv4 Samples.ack4_no_mask
     = (None, Some (errors_New "no netmask option in response packet"))
   /\ kind_of (errors_New "no netmask option in response packet") = Some MissingOption)
  /\ (netboot.GetNetConfFromPacketv4 Samples.ack4_zero_mask
        = (None, Some (errors_New
             "netmask extracted from OptSubnetMask options is null"))
      /\ kind_of (errors_New "netmask extracted from OptSubnetMask options is null")
         = Some InvalidValue).
Proof.
  split.
  - apply (C5_v4_mask_errors Samples.ack4_no_mask (Samples.ip4 192 0 2 50));
      reflexivity.
  - apply (C5_v4_mask_errors Samples.ack4_zero_mask (Samples.ip4 192 0 2 50)
             eq_refl eq_refl) with (m := Samples.ip4 0 0 0 0); reflexivity.
Defined.

(** ** Claims about [GetNetConfFromPacketv6] *)

(** Each bound address and the record made from it: same address, a mask of
    prefix width 128 out of 128, and the address's own two lifetimes. *)
Lemma addrconf6_fields (a : dhcpv6.OptIAAddress) :
  net.IP_ (netboot.IPNet (addrconf6 a)) = dhcpv6.IPv6Addr a
  /\ option_map net.Size (net.Mask (netboot.IPNet (addrconf6 a))) = Some (128, 128)
  /\ netboot.PreferredLifetime (addrconf6 a) = dhcpv6.PreferredLifetime a
  /\ netboot.ValidLifetime (addrconf6 a) = dhcpv6.ValidLifetime a.
Proof. repeat split. Qed.

Lemma Forall2_map_r {A B : Type} (R : A -> B -> Prop) (f : A -> B) (l : list A) :
  (forall a, R a (f a)) -> Forall2 R l (map f l).
Proof. intros H; induction l; simpl; constructor; auto. Qed.

(** C2.  v6 extraction fails with the MissingOption error when the reply
    has no IA_NA.  When it has one, extraction returns a NetConf whose
    Addresses match the IA_NA's bound addresses one for one and in order:
    each AddrConf has the bound address, a /128 mask, and that address's
    own preferred and valid lifetimes. *)
Theorem C2_v6_addresses (d : dhcpv6.Message) :
  match dhcpv6.OneIANA (dhcpv6.Options d) with
  | None =>
      netboot.GetNetConfFromPacketv6 d = (None, Some (errors_New "no option IA NA found"))
      /\ kind_of (errors_New "no option IA NA found") = Some MissingOption
  | Some iana =>
      exists nc,
        netboot.GetNetConfFromPacketv6 d = (Some nc, None)
        /\ Forall2
             (fun iaaddr ac =>
                net.IP_ (netboot.IPNet ac) = dhcpv6.IPv6Addr iaaddr
                /\ option_map net.Size (net.Mask (netboot.IPNet ac)) = Some (128, 128)
                /\ netboot.PreferredLifetime ac = dhcpv6.PreferredLifetime iaaddr
                /\ netboot.ValidLifetime ac = dhcpv6.ValidLifetime iaaddr)
             (dhcpv6.Addresses (dhcpv6.IANA_Options iana))
             (netboot.Addresses nc)
  end.
Proof.
  rewrite GetNetConfFromPacketv6_eq.
  destruct (dhcpv6.OneIANA (dhcpv6.Options d)) as [iana|].
  - exists (netconf6 d iana); split; [reflexivity|].
    apply Forall2_map_r, addrconf6_fields.
  - split; reflexivity.
Qed.

(** Two bound addresses give two records, each with its own lifetimes. *)
Example v6_two_addresses :
  exists nc,
    netboot.GetNetConfFromPacketv6 Samples.reply6 = (Some nc, None)
    /\ map (fun ac => (net.IP_ (netboot.IPNet ac),
                       option_map net.Size (net.Mask (netboot.IPNet ac)),
                       netboot.PreferredLifetime ac, netboot.ValidLifetime ac))
         (netboot.Addresses nc)
       = [ (Samples.addr6 1, Some (128, 128), 3600 * time.Second, 7200 * time.Second);
           (Samples.addr6 2, Some (128, 128), 60 * time.Second, 120 * time.Second) ].
Proof. eexists; split; reflexivity. Qed.

(** C10.  v6 extraction returns an error exactly when the IA_NA option is
    absent, and a NetConf exactly when it is present; a reply whose IA_NA
    binds no address and which has no DNS, domain-search or NTP option
    yields the NetConf with every field empty. *)
Theorem C10_v6_error_iff_no_iana (d : dhcpv6.Message) :
  ((exists e, snd (netboot.GetNetConfFromPacketv6 d) = Some e)
     <-> dhcpv6.OneIANA (dhcpv6.Options d) = None)
  /\ ((exists nc, netboot.GetNetConfFromPacketv6 d = (Some nc, None))
        <-> exists iana, dhcpv6.OneIANA (dhcpv6.Options d) = Some iana)
  /\ (forall mt xid t1 t2,
        netboot.GetNetConfFromPacketv6
          (dhcpv6.mkMessage mt xid
             (dhcpv6.mkMessageOptions
                (Some (dhcpv6.mkOptIANA t1 t2 (dhcpv6.mkIdentityOptions [])))
                [] None []))
        = (Some (netboot.mkNetConf [] [] [] [] []), None)).
Proof.
  pose proof (GetNetConfFromPacketv6_eq d) as E.
  split; [|split]; [| |reflexivity];
    destruct (dhcpv6.OneIANA (dhcpv6.Options d)) as [iana|]; rewrite E; simpl.
  - split; [intros [e He]; discriminate | discriminate].
  - split; [reflexivity | eauto].
  - split; eauto.
  - split; [intros [nc H]; discriminate | intros [iana H]; discriminate].
Qed.

(** ** Claims about both extraction functions *)

(** C8.  Each extraction function returns either an error and no NetConf,
    or a NetConf and no error; a returned NetConf has every field filled
    from the reply. *)
Theorem C8_extraction_atomic (d4 : dhcpv4.DHCPv4) (d6 : dhcpv6.Message) :
  match netboot.GetNetConfFromPacketv4 d4 with
  | (None, Some _) => True
  | (Some nc, None) =>
      exists ip m,
        dhcpv4.YourIPAddr d4 = Some ip /\ dhcpv4.SubnetMask d4 = Some m
        /\ nc = netconf4 d4 ip m
  | (Some _, Some _) | (None, None) => False
  end
  /\
  match netboot.GetNetConfFromPacketv6 d6 with
  | (None, Some _) => True
  | (Some nc, None) =>
      exists iana,
        dhcpv6.OneIANA (dhcpv6.Options d6) = Some iana /\ nc = netconf6 d6 iana
  | (Some _, Some _) | (None, None) => False
  end.
Proof.
  rewrite GetNetConfFromPacketv4_eq, GetNetConfFromPacketv6_eq. split.
  - destruct (dhcpv4.YourIPAddr d4) as [ip|]; [|exact I].
    destruct (net.Equal ip net.IPv4zero); [exact I|].
    destruct (dhcpv4.SubnetMask d4) as [m|]; [|exact I].
    destruct (fst (net.Size m) =? 0); [exact I|].
    destruct (dhcpv4.DomainSearch d4) as [l|] eqn:Hl.
    + destruct (rfc1035label.Labels_ l); [exact I|]. now exists ip, m.
    + now exists ip, m.
  - destruct (dhcpv6.OneIANA (dhcpv6.Options d6)) as [iana|]; [|exact I].
    now exists iana.
Qed.

(** ** The domain-search option *)

(** C3, as amended.  (1) A v4 reply that passes the address check and has
    a subnet mask, and whose domain-search option is present with zero
    labels, is rejected with an InvalidValue error, which is the empty
    search list error when the mask has non-zero width.  (2) A v4 reply
    without domain-search option is never rejected with that error, and is
    accepted with an empty DNSSearchList when its address and mask pass.
    (3) A v6 reply with an IA_NA, whose domain-search option is absent or
    present with zero labels, is accepted with an empty DNSSearchList.
    (4) v6 extraction fails for no other reason than a missing IA_NA. *)
Theorem C3_domain_search_asymmetry (d4 : dhcpv4.DHCPv4) (d6 : dhcpv6.Message) :
  (forall ip m l,
      dhcpv4.YourIPAddr d4 = Some ip ->
      net.Equal ip net.IPv4zero = false ->
      dhcpv4.SubnetMask d4 = Some m ->
      dhcpv4.DomainSearch d4 = Some l ->
      rfc1035label.Labels_ l = [] ->
      exists e,
        netboot.GetNetConfFromPacketv4 d4 = (None, Some e)
        /\ kind_of e = Some InvalidValue
        /\ (fst (net.Size m) <> 0 -> e = errors_New "dns search list is empty"))
  /\ (dhcpv4.DomainSearch d4 = None ->
      snd (netboot.GetNetConfFromPacketv4 d4)
        <> Some (errors_New "dns search list is empty")
      /\ (forall ip m,
            dhcpv4.YourIPAddr d4 = Some ip ->
            net.Equal ip net.IPv4zero = false ->
            dhcpv4.SubnetMask d4 = Some m ->
            fst (net.Size m) <> 0 ->
            exists nc,
              netboot.GetNetConfFromPacketv4 d4 = (Some nc, None)
              /\ netboot.DNSSearchList nc = []))
  /\ (forall iana,
        dhcpv6.OneIANA (dhcpv6.Options d6) = Some iana ->
        (dhcpv6.DomainSearchList (dhcpv6.Options d6) = None
         \/ exists l, dhcpv6.DomainSearchList (dhcpv6.Options d6) = Some l
                      /\ rfc1035label.Labels_ l = []) ->
        exists nc,
          netboot.GetNetConfFromPacketv6 d6 = (Some nc, None)
          /\ netboot.DNSSearchList nc = [])
  /\ (forall e,
        snd (netboot.GetNetConfFromPacketv6 d6) = Some e ->
        dhcpv6.OneIANA (dhcpv6.Options d6) = None).
Proof.
  pose proof (GetNetConfFromPacketv4_eq d4) as E4.
  pose proof (GetNetConfFromPacketv6_eq d6) as E6.
  repeat apply conj.
  - intros ip m l Hip Hnz Hm Hl Hempty.
    rewrite Hip, Hnz, Hm, Hl, Hempty in E4.
    destruct (fst (net.Size m) =? 0) eqn:Hw; rewrite E4; eexists;
      (split; [reflexivity|split; [reflexivity|]]).
    + apply Z.eqb_eq in Hw. intros Hne; contradiction.
    + reflexivity.
  - intros Hl; rewrite Hl in E4. split.
    + rewrite E4.
      destruct (dhcpv4.YourIPAddr d4) as [ip|]; [|discriminate].
      destruct (net.Equal ip net.IPv4zero); [discriminate|].
      destruct (dhcpv4.SubnetMask d4) as [m|]; [|discriminate].
      destruct (fst (net.Size m) =? 0); discriminate.
    + intros ip m Hip Hnz Hm Hw.
      rewrite Hip, Hnz, Hm in E4. apply Z.eqb_neq in Hw; rewrite Hw in E4.
      exists (netconf4 d4 ip m); split; [exact E4|].
      unfold netconf4; simpl. now rewrite Hl.
  - intros iana Hi Hs. rewrite Hi in E6.
    exists (netconf6 d6 iana); split; [exact E6|].
    unfold netconf6; simpl.
    destruct Hs as [-> | (l & -> & ->)]; reflexivity.
  - intros e He. rewrite E6 in He.
    destruct (dhcpv6.OneIANA (dhcpv6.Options d6)); [discriminate|reflexivity].
Qed.

Lemma C3_domain_search_asymmetry_witness :
  (exists e,
      netboot.GetNetConfFromPacketv4 Samples.ack4_empty_search = (None, Some e)
      /\ kind_of e = Some InvalidValue
      /\ (fst (net.Size (Samples.ip4 255 255 255 0)) <> 0 ->
          e = errors_New "dns search list is empty"))
  /\ (exists nc,
        netboot.GetNetConfFromPacketv4 Samples.ack4 = (Some nc, None)
        /\ netboot.DNSSearchList nc = [])
  /\ (exists nc,
        netboot.GetNetConfFromPacketv6 Samples.reply6 = (Some nc, None)
        /\ netboot.DNSSearchList nc = [])
  /\ (exists nc,
        netboot.GetNetConfFromPacketv6 Samples.reply6_empty_search = (Some nc, None)
        /\ netboot.DNSSearchList nc = []).
Proof.
  repeat apply conj.
  - apply (proj1 (C3_domain_search_asymmetry Samples.ack4_empty_search Samples.reply6)
             (Samples.ip4 192 0 2 50) (Samples.ip4 255 255 255 0)
             (rfc1035label.mkLabels []));
      reflexivity.
  - apply (proj2 (proj1 (proj2 (C3_domain_search_asymmetry Samples.ack4 Samples.reply6))
                    eq_refl)
             (Samples.ip4 192 0 2 50) (Samples.ip4 255 255 255 0));
      try reflexivity.
    vm_compute; discriminate.
  - apply (proj1 (proj2 (proj2 (C3_domain_search_asymmetry Samples.ack4 Samples.reply6)))
             (dhcpv6.mkOptIANA (1800 * time.Second) (2880 * time.Second)
                (dhcpv6.mkIdentityOptions
                   [ dhcpv6.mkOptIAAddress (Samples.addr6 1)
                       (3600 * time.Second) (7200 * time.Second);
                     dhcpv6.mkOptIAAddress (Samples.addr6 2)
                       (60 * time.Second) (120 * time.Second) ]))).
    + reflexivity.
    + left; reflexivity.
  - apply (proj1 (proj2 (proj2
             (C3_domain_search_asymmetry Samples.ack4 Samples.reply6_empty_search)))
             (dhcpv6.mkOptIANA (1800 * time.Second) (2880 * time.Second)
                (dhcpv6.mkIdentityOptions
                   [ dhcpv6.mkOptIAAddress (Samples.addr6 1)
                       (3600 * time.Second) (7200 * time.Second);
                     dhcpv6.mkOptIAAddress (Samples.addr6 2)
                       (60 * time.Second) (120 * time.Second) ]))).
    + reflexivity.
    + right; exists (rfc1035label.mkLabels []); split; reflexivity.
Defined.

(** C3 as stated fails: a v4 reply whose domain-search option is present
    with zero labels, but whose YourIPAddress is nil, is rejected with the
    MissingField error, not with InvalidValue. *)
Lemma C3_counterexample :
  dhcpv4.DomainSearch Samples.ack4_nil_yiaddr_empty_search
    = Some (rfc1035label.mkLabels [])
  /\ netboot.GetNetConfFromPacketv4 Samples.ack4_nil_yiaddr_empty_search
     = (None, Some (errors_New "ip address is null (0.0.0.0)"))
  /\ kind_of (errors_New "ip address is null (0.0.0.0)") = Some MissingField
  /\ kind_of (errors_New "ip address is null (0.0.0.0)") <> Some InvalidValue.
Proof. repeat split; try reflexivity. discriminate. Qed.

(** ** Claims about [IfUp] *)

(** One round of the loop of [IfUp] whose deadline check passes on an
    interface that is up: the handle is returned at once. *)
Lemma IfUp_loop_up (env : netboot.Env) (fuel : nat) (ifname : string)
    (timeout : time.Duration) (start : time.Time) (w : netboot.World)
    (iface : net.Interface) :
  netboot.clock env (netboot.clock_reads w) - start < timeout ->
  netboot.ifquery env (netboot.lookups w) ifname = inl iface ->
  N.land (net.Flags_ iface) net.FlagUp <> 0%N ->
  netboot.IfUp_loop env (S fuel) ifname timeout start w
  = Some (Some iface, None,
          netboot.mkWorld (S (netboot.clock_reads w)) (S (netboot.lookups w))
            (netboot.sleeps w)).
Proof.
  intros Ht Hq Hup. simpl.
  apply Z.ltb_lt in Ht; rewrite Ht.
  unfold netboot.net_InterfaceByName; simpl. rewrite Hq.
  apply N.eqb_neq in Hup; rewrite Hup. reflexivity.
Qed.

(** One round of the loop whose deadline check fails: the timeout error,
    without any lookup. *)
Lemma IfUp_loop_expired (env : netboot.Env) (fuel : nat) (ifname : string)
    (timeout : time.Duration) (start : time.Time) (w : netboot.World) :
  timeout <= netboot.clock env (netboot.clock_reads w) - start ->
  netboot.IfUp_loop env (S fuel) ifname timeout start w
  = Some (None,
          Some (fmt_Errorf "timed out while waiting for %s to come up"
                  [arg_string ifname]),
          netboot.mkWorld (S (netboot.clock_reads w)) (netboot.lookups w)
            (netboot.sleeps w)).
Proof.
  intros Ht. simpl. apply Z.ltb_ge in Ht; rewrite Ht. reflexivity.
Qed.

(** C9, as amended.  For every interface name whose lookup succeeds with
    the up flag set, and every timeout greater than the time that passes
    between the call's first clock reading and its first deadline check,
    [IfUp] returns that interface and no error on the first poll: one
    lookup, two clock readings, no sleep. *)
Theorem C9_ifup_already_up (env : netboot.Env) (fuel : nat) (ifname : string)
    (timeout : time.Duration) (w : netboot.World) (iface : net.Interface) :
  netboot.clock env (S (netboot.clock_reads w))
    - netboot.clock env (netboot.clock_reads w) < timeout ->
  netboot.ifquery env (netboot.lookups w) ifname = inl iface ->
  N.land (net.Flags_ iface) net.FlagUp <> 0%N ->
  netboot.IfUp env (S fuel) ifname timeout w
  = Some (Some iface, None,
          netboot.mkWorld (S (S (netboot.clock_reads w))) (S (netboot.lookups w))
            (netboot.sleeps w)).
Proof.
  intros Ht Hq Hup. unfold netboot.IfUp, netboot.time_Now.
  rewrite (IfUp_loop_up env fuel ifname timeout _ _ iface); auto.
Qed.

Lemma C9_ifup_already_up_witness :
  netboot.IfUp Samples.os_eth0_up 1 "eth0" (5 * time.Second) netboot.World_start
  = Some (Some Samples.eth0, None, netboot.mkWorld 2 1 []).
Proof.
  apply (C9_ifup_already_up Samples.os_eth0_up 0 "eth0" (5 * time.Second)
           netboot.World_start Samples.eth0).
  - vm_compute; reflexivity.
  - reflexivity.
  - vm_compute; discriminate.
Defined.

(** C9 as stated fails for the timeout 0: the interface exists and is up,
    yet [IfUp] returns the timeout error without looking it up. *)
Lemma C9_counterexample :
  netboot.ifquery Samples.os_eth0_up 0 "eth0" = inl Samples.eth0
  /\ N.land (net.Flags_ Samples.eth0) net.FlagUp = 1%N
  /\ netboot.IfUp Samples.os_eth0_up 10 "eth0" 0 netboot.World_start
     = Some (None,
             Some (fmt_Errorf "timed out while waiting for %s to come up"
                     [arg_string "eth0"]),
             netboot.mkWorld 2 0 []).
Proof. repeat split; reflexivity. Qed.

(** The same holds on every operating system whose clock does not run
    backwards, for every timeout that is not positive. *)
Lemma IfUp_nonpositive_timeout (env : netboot.Env) (fuel : nat) (ifname : string)
    (timeout : time.Duration) (w : netboot.World) :
  timeout <= 0 ->
  netboot.clock env (netboot.clock_reads w)
    <= netboot.clock env (S (netboot.clock_reads w)) ->
  netboot.IfUp env (S fuel) ifname timeout w
  = Some (None,
          Some (fmt_Errorf "timed out while waiting for %s to come up"
                  [arg_string ifname]),
          netboot.mkWorld (S (S (netboot.clock_reads w))) (netboot.lookups w)
            (netboot.sleeps w)).
Proof.
  intros Ht Hmono. unfold netboot.IfUp, netboot.time_Now.
  rewrite IfUp_loop_expired; [reflexivity|]. simpl. lia.
Qed.

(** *** The loop of [IfUp] ends

    On an operating system where every clock reading made after a sleep
    shows at least the 100 ms slept, the loop needs no more rounds than
    there are periods of 100 ms in the timeout, plus one. *)
Lemma IfUp_loop_terminates (env : netboot.Env) (ifname : string)
    (timeout : time.Duration) (start : time.Time) (f : nat) :
  forall w : netboot.World,
    (forall k, (netboot.clock_reads w <= k)%nat ->
               netboot.clock env k + 100 * time.Millisecond
               <= netboot.clock env (S k)) ->
    timeout - (netboot.clock env (netboot.clock_reads w) - start)
      <= Z.of_nat f * (100 * time.Millisecond) ->
    exists r, netboot.IfUp_loop env (S f) ifname timeout start w = Some r.
Proof.
  induction f as [|f IH]; intros w Hclock Hleft.
  - rewrite IfUp_loop_expired; [eauto|]. simpl in Hleft. lia.
  - cbn [netboot.IfUp_loop]. unfold netboot.time_Since, netboot.time_Now.
    destruct (_ <? timeout) eqn:Hlt; [|eauto].
    unfold netboot.net_InterfaceByName.
    destruct (netboot.ifquery env _ ifname) as [iface|err]; [|eauto].
    destruct (negb _); [eauto|].
    apply IH.
    + simpl. intros k Hk. apply Hclock. lia.
    + simpl. specialize (Hclock (netboot.clock_reads w) (le_n _)).
      rewrite Nat2Z.inj_succ in Hleft.
      unfold time.Millisecond, time.Nanosecond in *. lia.
Qed.

Lemma IfUp_terminates (env : netboot.Env) (ifname : string)
    (timeout : time.Duration) (w : netboot.World) (f : nat) :
  netboot.clock env (netboot.clock_reads w)
    <= netboot.clock env (S (netboot.clock_reads w)) ->
  (forall k, (S (netboot.clock_reads w) <= k)%nat ->
             netboot.clock env k + 100 * time.Millisecond
             <= netboot.clock env (S k)) ->
  timeout <= Z.of_nat f * (100 * time.Millisecond) ->
  exists r, netboot.IfUp env (S f) ifname timeout w = Some r.
Proof.
  intros Hfirst Hclock Hf. unfold netboot.IfUp, netboot.time_Now.
  apply IfUp_loop_terminates; simpl; [assumption|].
  unfold time.Millisecond, time.Nanosecond in *. lia.
Qed.

(** An interface that comes up at the third poll is returned after two
    sleeps of 100 ms; a name that is not known fails at the first poll. *)
Example IfUp_runs :
  netboot.IfUp Samples.os_eth0_late 50 "eth0" (5 * time.Second) netboot.World_start
  = Some (Some Samples.eth0, None,
          netboot.mkWorld 4 3 [100 * time.Millisecond; 100 * time.Millisecond])
  /\ netboot.IfUp Samples.os_eth0_late 50 "eth7" (5 * time.Second) netboot.World_start
     = Some (None, Some (errors_New "route ip+net: no such network interface"),
             netboot.mkWorld 2 1 []).
Proof. split; vm_compute; reflexivity. Qed.

(** ** The receive loop of [sendReceive] *)

Lemma TxID_eqb_eq (a b : dhcpv4.TxID) : dhcpv4.TxID_eqb a b = true <-> a = b.
Proof.
  destruct a as [[[a0 a1] a2] a3], b as [[[b0 b1] b2] b3]; simpl.
  rewrite !andb_true_iff. split.
  - intros [[[H0 H1] H2] H3].
    apply Byte.byte_dec_bl in H0, H1, H2, H3. congruence.
  - intros [= -> -> -> ->]. repeat split; now apply Byte.byte_dec_lb.
Qed.

Section ReceiveLoop.

Variable FromBytes : list byte -> dhcpv4.DHCPv4 + error.
Variable packet : dhcpv4.DHCPv4.
Variable messageType : dhcpv4.MessageType_t.

Local Notation "'loop'" := (client4.receive_loop FromBytes packet messageType).
Local Notation "'kept'" := (client4.kept FromBytes packet messageType).
Local Notation "'outcome'" := (outcome FromBytes packet messageType).

(** The filter holds exactly when none of the loop's three checks says
    [continue]. *)
Lemma accept_iff (response : dhcpv4.DHCPv4) :
  client4.accept response (dhcpv4.TransactionID packet) dhcpv4.OpcodeBootReply messageType
    = true
  <-> dhcpv4.TransactionID response = dhcpv4.TransactionID packet
      /\ dhcpv4.OpCode response = dhcpv4.OpcodeBootReply
      /\ (messageType <> dhcpv4.MessageTypeNone ->
          dhcpv4.MessageType response = messageType).
Proof.
  unfold client4.accept.
  rewrite !andb_true_iff, orb_true_iff, TxID_eqb_eq, !N.eqb_eq.
  split; intros [Hx [Ho Ht]] || intros [[Hx Ho] Ht]; repeat split; auto.
  - intros Hne. destruct Ht; [contradiction|assumption].
  - destruct (N.eq_dec messageType dhcpv4.MessageTypeNone); auto.
Qed.

(** A datagram is dropped exactly when it does not parse, or parses to a
    message with another transaction identifier, or another opcode than
    reply, or, when a message type is expected, another message type. *)
Lemma kept_false_iff (datagram : list byte) :
  kept datagram = false
  <-> match FromBytes (firstn client4.MaxUDPReceivedPacketSize datagram) with
      | inr _ => True
      | inl response =>
          dhcpv4.TransactionID response <> dhcpv4.TransactionID packet
          \/ dhcpv4.OpCode response <> dhcpv4.OpcodeBootReply
          \/ (messageType <> dhcpv4.MessageTypeNone
              /\ dhcpv4.MessageType response <> messageType)
      end.
Proof.
  unfold client4.kept.
  destruct (FromBytes _) as [response|err]; [|tauto].
  rewrite <- not_true_iff_false, accept_iff.
  destruct (dhcpv4.TxID_eqb (dhcpv4.TransactionID response)
              (dhcpv4.TransactionID packet)) eqn:Hx.
  - apply TxID_eqb_eq in Hx.
    destruct (N.eq_dec (dhcpv4.OpCode response) dhcpv4.OpcodeBootReply) as [Ho|Ho];
      [|tauto].
    destruct (N.eq_dec messageType dhcpv4.MessageTypeNone) as [Hn|Hn]; [tauto|].
    destruct (N.eq_dec (dhcpv4.MessageType response) messageType); tauto.
  - assert (dhcpv4.TransactionID response <> dhcpv4.TransactionID packet).
    { intros E; apply TxID_eqb_eq in E; congruence. }
    tauto.
Qed.

(** One round of the loop on a datagram: dropped, or returned. *)
Lemma loop_datagram (datagram : list byte) (rest : list (list byte + error)) :
  loop (inl datagram :: rest) =
  match FromBytes (firstn client4.MaxUDPReceivedPacketSize datagram) with
  | inr _ => loop rest
  | inl response => if kept datagram then (inl response, rest) else loop rest
  end.
Proof.
  unfold client4.kept, client4.accept; simpl.
  destruct (FromBytes _) as [response|err]; [|reflexivity].
  destruct (dhcpv4.TxID_eqb _ _); [|reflexivity]; simpl.
  destruct (N.eqb (dhcpv4.OpCode response) _); [|reflexivity]; simpl.
  destruct (N.eqb messageType _); [reflexivity|]; simpl.
  destruct (N.eqb (dhcpv4.MessageType response) _); reflexivity.
Qed.

Lemma loop_drop (datagram : list byte) (rest : list (list byte + error)) :
  kept datagram = false -> loop (inl datagram :: rest) = loop rest.
Proof.
  intros Hk. rewrite loop_datagram, Hk. now destruct (FromBytes _).
Qed.

(** Dropped datagrams, however many, leave the loop where it was. *)
Lemma loop_drop_all (junk : list (list byte)) (rest : list (list byte + error)) :
  forallb (fun dg => negb (kept dg)) junk = true ->
  loop (map inl junk ++ rest) = loop rest.
Proof.
  induction junk as [|dg junk IH]; [reflexivity|].
  cbn [map app forallb].
  intros [Hd Hj]%andb_true_iff. apply negb_true_iff in Hd.
  rewrite loop_drop by assumption. auto.
Qed.

Lemma outcome_cons (dg : list byte) (incoming : list (list byte + error)) r :
  kept dg = false -> outcome incoming r -> outcome (inl dg :: incoming) r.
Proof.
  intros Hk [junk d resp rest -> Hj Hp Hd | junk cause rest -> Hj | junk -> Hj].
  - apply (matched _ _ _ _ (dg :: junk) d resp rest); auto.
    simpl. now rewrite Hk, Hj.
  - apply (read_failed _ _ _ _ (dg :: junk) cause rest); auto.
    simpl. now rewrite Hk, Hj.
  - apply (deadline_elapsed _ _ _ _ (dg :: junk)); auto.
    simpl. now rewrite Hk, Hj.
Qed.

(** The loop always ends, in one of the three ways. *)
Lemma loop_outcome (incoming : list (list byte + error)) :
  outcome incoming (loop incoming).
Proof.
  induction incoming as [|[dg|err] incoming IH].
  - now apply (deadline_elapsed _ _ _ _ []).
  - rewrite loop_datagram.
    destruct (FromBytes _) as [response|perr] eqn:Hp.
    + destruct (kept dg) eqn:Hk.
      * now apply (matched _ _ _ _ [] dg response incoming).
      * now apply outcome_cons.
    + apply outcome_cons; [|assumption].
      unfold client4.kept. now rewrite Hp.
  - now apply (read_failed _ _ _ _ [] err incoming).
Qed.

End ReceiveLoop.

(** C7.  Whatever the socket delivers: (1) a datagram that does not parse,
    or parses to a message with another transaction identifier, a non-reply
    opcode, or (a message type being expected) another message type, is
    dropped and the loop goes on with the next read; (2) a message the loop
    returns has the expected transaction identifier, the reply opcode and,
    when one is expected, the expected message type, and is the first
    datagram kept; (3) an error the loop returns wraps the error of a read,
    which the socket delivered or which is the deadline error, never the
    error of a parse; (4) a run that meets dropped datagrams only ends with
    the error of the read that follows them. *)
Theorem C7_receive_loop_filters
    (FromBytes : list byte -> dhcpv4.DHCPv4 + error)
    (packet : dhcpv4.DHCPv4) (messageType : dhcpv4.MessageType_t)
    (incoming : list (list byte + error)) :
  (forall datagram,
      match FromBytes (firstn client4.MaxUDPReceivedPacketSize datagram) with
      | inr _ => True
      | inl response =>
          dhcpv4.TransactionID response <> dhcpv4.TransactionID packet
          \/ dhcpv4.OpCode response <> dhcpv4.OpcodeBootReply
          \/ (messageType <> dhcpv4.MessageTypeNone
              /\ dhcpv4.MessageType response <> messageType)
      end ->
      client4.receive_loop FromBytes packet messageType (inl datagram :: incoming)
      = client4.receive_loop FromBytes packet messageType incoming)
  /\ (forall response rest,
        client4.receive_loop FromBytes packet messageType incoming = (inl response, rest) ->
        dhcpv4.TransactionID response = dhcpv4.TransactionID packet
        /\ dhcpv4.OpCode response = dhcpv4.OpcodeBootReply
        /\ (messageType <> dhcpv4.MessageTypeNone ->
            dhcpv4.MessageType response = messageType)
        /\ exists junk datagram,
             incoming = map inl junk ++ inl datagram :: rest
             /\ forallb (fun dg => negb (client4.kept FromBytes packet messageType dg)) junk
                = true
             /\ FromBytes (firstn client4.MaxUDPReceivedPacketSize datagram)
                = inl response)
  /\ (forall err rest,
        client4.receive_loop FromBytes packet messageType incoming = (inr err, rest) ->
        exists cause,
          err = fmt_Errorf "failed to receive DHCP response: %v" [arg_error cause]
          /\ (In (inr cause) incoming
              \/ (cause = ErrDeadlineExceeded /\ rest = []
                  /\ exists junk, incoming = map inl junk)))
  /\ (forall junk,
        incoming = map inl junk ->
        forallb (fun dg => negb (client4.kept FromBytes packet messageType dg)) junk = true ->
        client4.receive_loop FromBytes packet messageType incoming
        = (inr (fmt_Errorf "failed to receive DHCP response: %v"
                  [arg_error ErrDeadlineExceeded]), [])
        /\ forall cause rest,
             client4.receive_loop FromBytes packet messageType
               (incoming ++ inr cause :: rest)
             = (inr (fmt_Errorf "failed to receive DHCP response: %v"
                       [arg_error cause]), rest)).
Proof.
  repeat apply conj.
  - intros datagram Hd. apply loop_drop. now apply kept_false_iff.
  - intros response rest Hrun.
    pose proof (loop_outcome FromBytes packet messageType incoming) as Hout.
    rewrite Hrun in Hout. inversion Hout as [junk dg resp rest' Hin Hj Hp Hk | |].
    subst. unfold client4.kept in Hk. rewrite Hp in Hk.
    apply accept_iff in Hk. destruct Hk as (Hx & Ho & Ht).
    repeat split; auto. now exists junk, dg.
  - intros err rest Hrun.
    pose proof (loop_outcome FromBytes packet messageType incoming) as Hout.
    rewrite Hrun in Hout.
    inversion Hout as [ | junk cause rest' Hin Hj | junk Hin Hj]; subst.
    + exists cause; split; [reflexivity|]. left.
      apply in_or_app; right; now left.
    + exists ErrDeadlineExceeded; split; [reflexivity|]. right.
      repeat split. now exists junk.
  - intros junk -> Hj. split.
    + rewrite <- (app_nil_r (map inl junk)). now rewrite loop_drop_all.
    + intros cause rest. now rewrite loop_drop_all.
Qed.

Lemma C7_receive_loop_filters_witness :
  (client4.receive_loop Toy.parse Toy.discover dhcpv4.MessageTypeOffer
     (inl (Toy.serialize Toy.foreign_offer) :: Toy.traffic_without_ack)
   = client4.receive_loop Toy.parse Toy.discover dhcpv4.MessageTypeOffer
       Toy.traffic_without_ack)
  /\ (dhcpv4.TransactionID Toy.offer = dhcpv4.TransactionID Toy.discover
      /\ dhcpv4.OpCode Toy.offer = dhcpv4.OpcodeBootReply
      /\ (dhcpv4.MessageTypeOffer <> dhcpv4.MessageTypeNone ->
          dhcpv4.MessageType Toy.offer = dhcpv4.MessageTypeOffer))
  /\ (exists cause,
        fmt_Errorf "failed to receive DHCP response: %v" [arg_error ErrDeadlineExceeded]
        = fmt_Errorf "failed to receive DHCP response: %v" [arg_error cause]
        /\ (In (inr cause) Toy.traffic_without_ack
            \/ (cause = ErrDeadlineExceeded /\ @nil (list byte + error) = []
                /\ exists junk, Toy.traffic_without_ack = map inl junk))).
Proof.
  repeat apply conj.
  - apply (proj1 (C7_receive_loop_filters Toy.parse Toy.discover
                    dhcpv4.MessageTypeOffer Toy.traffic_without_ack)
             (Toy.serialize Toy.foreign_offer)).
    vm_compute. left; discriminate.
  - destruct (proj1 (proj2 (C7_receive_loop_filters Toy.parse Toy.discover
                    dhcpv4.MessageTypeOffer Toy.traffic_without_ack))
                Toy.offer
                [inl (Toy.serialize Toy.offer); inl (Toy.serialize Toy.foreign_ack); inl []]
                eq_refl) as (Hx & _); exact Hx.
  - destruct (proj1 (proj2 (C7_receive_loop_filters Toy.parse Toy.discover
                    dhcpv4.MessageTypeOffer Toy.traffic_without_ack))
                Toy.offer
                [inl (Toy.serialize Toy.offer); inl (Toy.serialize Toy.foreign_ack); inl []]
                eq_refl) as (_ & Ho & _); exact Ho.
  - destruct (proj1 (proj2 (C7_receive_loop_filters Toy.parse Toy.discover
                    dhcpv4.MessageTypeOffer Toy.traffic_without_ack))
                Toy.offer
                [inl (Toy.serialize Toy.offer); inl (Toy.serialize Toy.foreign_ack); inl []]
                eq_refl) as (_ & _ & Ht & _); exact Ht.
  - apply (proj1 (proj2 (proj2 (C7_receive_loop_filters Toy.parse Toy.request
                    dhcpv4.MessageTypeAck Toy.traffic_without_ack)))
             (fmt_Errorf "failed to receive DHCP response: %v"
                [arg_error ErrDeadlineExceeded]) []).
    reflexivity.
Defined.

(** ** The exchange *)

Section ExchangeFacts.

Variable FromBytes : list byte -> dhcpv4.DHCPv4 + error.
Variable ToBytes : dhcpv4.DHCPv4 -> list byte.

(** The deadline setters and [WriteTo] leave the pending reads alone. *)
Lemma sendReceive_when_sent (c : client4.Client) (conn : client4.UDPConn)
    (packet : dhcpv4.DHCPv4) (raddr : net.UDPAddr)
    (messageType : dhcpv4.MessageType_t) :
  sends_ok conn ->
  fst (client4.sendReceive FromBytes ToBytes c conn packet raddr messageType)
  = fst (client4.receive_loop FromBytes packet messageType (client4.incoming conn)).
Proof.
  intros (Hw & Hs & Hr).
  unfold client4.sendReceive, client4.SetWriteDeadline, client4.WriteTo,
    client4.SetReadDeadline.
  destruct (client4.next_result (client4.setWriteDeadline_results conn)) as [r1 l1].
  simpl in Hw; subst r1; simpl.
  destruct (client4.next_result (client4.writeTo_results conn)) as [r2 l2].
  simpl in Hs; subst r2; simpl.
  destruct (client4.next_result (client4.setReadDeadline_results conn)) as [r3 l3].
  simpl in Hr; subst r3; simpl.
  now destruct (client4.receive_loop _ _ _ _).
Qed.

(** A receive loop that meets no reply it keeps ends with the wrapped
    deadline error. *)
Lemma receive_loop_no_reply (packet : dhcpv4.DHCPv4)
    (messageType : dhcpv4.MessageType_t) (q : list (list byte + error))
    (cause : error) :
  no_reply_until_deadline (client4.kept FromBytes packet messageType) q cause ->
  fst (client4.receive_loop FromBytes packet messageType q)
    = inr (fmt_Errorf "failed to receive DHCP response: %v" [arg_error cause])
  /\ kind_of (fmt_Errorf "failed to receive DHCP response: %v" [arg_error cause])
     = Some Timeout.
Proof.
  intros [junk Hj | junk text tail Hj].
  - rewrite <- (app_nil_r (map inl junk)), loop_drop_all by assumption.
    split; reflexivity.
  - rewrite loop_drop_all by assumption. split; reflexivity.
Qed.

End ExchangeFacts.

(** C6.  In every run of [Exchange] in which the Discover is built and
    sent, an Offer for it is received, the Request is built and sent, and
    the socket then delivers no datagram that is kept as the Ack before
    reading ends with the deadline error, [Exchange] returns the
    conversation Discover, Offer, Request, in that order, and the error of
    the receive, whose kind is Timeout. *)
Theorem C6_exchange_ack_timeout
    (FromBytes : list byte -> dhcpv4.DHCPv4 + error)
    (ToBytes : dhcpv4.DHCPv4 -> list byte)
    (NewDiscoveryForInterface : string -> list dhcpv4.Modifier -> dhcpv4.DHCPv4 + error)
    (NewRequestFromOffer :
       dhcpv4.DHCPv4 -> list dhcpv4.Modifier -> dhcpv4.DHCPv4 + error)
    (ListenUDP : string -> net.UDPAddr -> client4.UDPConn + error)
    (c : client4.Client) (ifname : string) (modifiers : list dhcpv4.Modifier)
    (raddr laddr : net.UDPAddr) (conn conn1 : client4.UDPConn)
    (discover offer request : dhcpv4.DHCPv4) (cause : error) :
  client4.getRemoteUDPAddr c = inl raddr ->
  client4.getLocalUDPAddr c = inl laddr ->
  ListenUDP "udp4" (net.mkUDPAddr net.IPv4zero (net.Port laddr)) = inl conn ->
  NewDiscoveryForInterface ifname modifiers = inl discover ->
  client4.sendReceive FromBytes ToBytes c conn discover raddr dhcpv4.MessageTypeOffer
    = (inl offer, conn1) ->
  NewRequestFromOffer offer modifiers = inl request ->
  sends_ok conn1 ->
  no_reply_until_deadline (client4.kept FromBytes request dhcpv4.MessageTypeAck)
    (client4.incoming conn1) cause ->
  client4.Exchange FromBytes ToBytes NewDiscoveryForInterface NewRequestFromOffer
    ListenUDP c ifname modifiers
  = ([discover; offer; request],
     Some (fmt_Errorf "failed to receive DHCP response: %v" [arg_error cause]))
  /\ kind_of (fmt_Errorf "failed to receive DHCP response: %v" [arg_error cause])
     = Some Timeout.
Proof.
  intros Hr Hl Hconn Hd Hoffer Hreq Hsend Hnone.
  destruct (receive_loop_no_reply FromBytes request dhcpv4.MessageTypeAck
              (client4.incoming conn1) cause Hnone) as [Hloop Hkind].
  split; [|exact Hkind].
  unfold client4.Exchange. rewrite Hr, Hl, Hconn, Hd, Hoffer, Hreq.
  pose proof (sendReceive_when_sent FromBytes ToBytes c conn1 request raddr
                dhcpv4.MessageTypeAck Hsend) as Hsr.
  rewrite Hloop in Hsr.
  destruct (client4.sendReceive FromBytes ToBytes c conn1 request raddr
              dhcpv4.MessageTypeAck) as [res conn2].
  simpl in Hsr; subst res. reflexivity.
Qed.

(** On the sample traffic, in which the Offer arrives among noise and no Ack
    for the transaction ever does, the exchange ends after the Request. *)
Lemma C6_exchange_ack_timeout_witness :
  client4.Exchange Toy.parse Toy.serialize Toy.discovery Toy.request_from
    (Toy.listen Toy.traffic_without_ack) client4.NewClient "eth0" []
  = ([Toy.discover; Toy.offer; Toy.request],
     Some (fmt_Errorf "failed to receive DHCP response: %v"
             [arg_error ErrDeadlineExceeded]))
  /\ kind_of (fmt_Errorf "failed to receive DHCP response: %v"
                [arg_error ErrDeadlineExceeded])
     = Some Timeout.
Proof.
  apply (C6_exchange_ack_timeout Toy.parse Toy.serialize Toy.discovery
           Toy.request_from (Toy.listen Toy.traffic_without_ack)
           client4.NewClient "eth0" []
           (net.mkUDPAddr net.IPv4bcast dhcpv4.ServerPort)
           (net.mkUDPAddr net.IPv4zero dhcpv4.ClientPort)
           (Toy.socket Toy.traffic_without_ack)
           (client4.mkUDPConn [] [] []
              [inl (Toy.serialize Toy.offer); inl (Toy.serialize Toy.foreign_ack); inl []]
              [(Toy.serialize Toy.discover,
                net.mkUDPAddr net.IPv4bcast dhcpv4.ServerPort)]
              (Some client4.DefaultWriteTimeout) (Some client4.DefaultReadTimeout))
           Toy.discover Toy.offer Toy.request ErrDeadlineExceeded).
  - reflexivity.
  - reflexivity.
  - reflexivity.
  - reflexivity.
  - vm_compute; reflexivity.
  - reflexivity.
  - repeat split.
  - apply (nothing_more _
             [Toy.serialize Toy.offer; Toy.serialize Toy.foreign_ack; []]).
    vm_compute; reflexivity.
Defined.

(** When the Ack does arrive, the conversation has all four messages. *)
Example exchange_complete :
  client4.Exchange Toy.parse Toy.serialize Toy.discovery Toy.request_from
    (Toy.listen (Toy.traffic_without_ack ++ [inl (Toy.serialize Toy.ack)]))
    client4.NewClient "eth0" []
  = ([Toy.discover; Toy.offer; Toy.request; Toy.ack], None).
Proof. vm_compute; reflexivity. Qed.

(** * Further properties of the code *)

(** ** [GetNetConfFromPacketv4]: which replies are accepted *)

(** [Equal] identifies two byte strings with [net.IPv4zero]: the four zero
    bytes, and [net.IPv4zero] itself, the sixteen-byte form. *)
Lemma Equal_IPv4zero_iff (ip : net.IP) :
  net.Equal ip net.IPv4zero = true
  <-> ip = [B 0; B 0; B 0; B 0] \/ ip = net.IPv4zero.
Proof.
  unfold net.Equal.
  change (List.length net.IPv4zero) with 16%nat.
  change net.IPv6len with 16%nat. change net.IPv4len with 4%nat.
  destruct (Nat.eqb (List.length ip) 16) eqn:H16.
  - rewrite bytes_Equal_eq. split; [auto|].
    intros [->| ->]; [discriminate H16|reflexivity].
  - destruct (Nat.eqb (List.length ip) 4) eqn:H4; simpl.
    + change (bytes_Equal ip [B 0; B 0; B 0; B 0] = true <->
              ip = [B 0; B 0; B 0; B 0] \/ ip = net.IPv4zero).
      rewrite bytes_Equal_eq. split; [auto|].
      intros [->| ->]; [reflexivity|discriminate H4].
    + split; [discriminate|].
      intros [->| ->]; [discriminate H4|discriminate H16].
Qed.


(** X2.  v4 extraction reports the null address exactly for a nil
    YourIPAddr, for the four zero bytes, and for the sixteen-byte form of
    0.0.0.0; every other byte string, the sixteen zero bytes included,
    passes this check. *)
Theorem X2_v4_null_address_iff (d : dhcpv4.DHCPv4) :
  netboot.GetNetConfFromPacketv4 d
    = (None, Some (errors_New "ip address is null (0.0.0.0)"))
  <-> dhcpv4.YourIPAddr d = None
      \/ dhcpv4.YourIPAddr d = Some [B 0; B 0; B 0; B 0]
      \/ dhcpv4.YourIPAddr d = Some net.IPv4zero.
Proof.
  rewrite GetNetConfFromPacketv4_eq.
  destruct (dhcpv4.YourIPAddr d) as [ip|]; [|tauto].
  destruct (net.Equal ip net.IPv4zero) eqn:Hz.
  - apply Equal_IPv4zero_iff in Hz.
    split; [intros _|reflexivity].
    right. destruct Hz as [->| ->]; auto.
  - split.
    + destruct (dhcpv4.SubnetMask d) as [m|]; [|discriminate].
      destruct (fst (net.Size m) =? 0); [discriminate|].
      destruct (dhcpv4.DomainSearch d) as [l|]; [|discriminate].
      destruct (rfc1035label.Labels_ l); discriminate.
    + intros [H|[H|H]]; [discriminate| |]; injection H as ->;
        vm_compute in Hz; discriminate.
Qed.

Example sixteen_zero_bytes_pass :
  net.Equal (repeat (B 0) 16) net.IPv4zero = false.
Proof. reflexivity. Qed.

(** [Size] undoes [CIDRMask] for every IPv4 prefix width. *)
Lemma Size_CIDRMask_32 (n : Z) :
  0 <= n <= 32 ->
  exists m, net.CIDRMask n 32 = Some m /\ net.Size m = (n, 32).
Proof.
  intros Hn.
  assert (Hall :
    forallb
      (fun k =>
         match net.CIDRMask (Z.of_nat k) 32 with
         | Some m => (fst (net.Size m) =? Z.of_nat k) && (snd (net.Size m) =? 32)
         | None => false
         end)
      (seq 0 33) = true) by (vm_compute; reflexivity).
  rewrite forallb_forall in Hall.
  specialize (Hall (Z.to_nat n)).
  rewrite Z2Nat.id in Hall by lia.
  destruct (net.CIDRMask n 32) as [m|].
  - exists m; split; [reflexivity|].
    assert (Hin : In (Z.to_nat n) (seq 0 33)) by (apply in_seq; lia).
    apply Hall in Hin. apply andb_true_iff in Hin as [H1 H2].
    apply Z.eqb_eq in H1, H2.
    destruct (net.Size m); simpl in *; congruence.
  - assert (Hin : In (Z.to_nat n) (seq 0 33)) by (apply in_seq; lia).
    apply Hall in Hin. discriminate.
Qed.

(** X3.  For a reply that passes the address check and whose subnet mask
    is the CIDR mask of width [n] out of 32, the width [Size] reads back is
    [n], and v4 extraction reports a null netmask exactly when [n] is 0. *)
Theorem X3_v4_cidr_masks (d : dhcpv4.DHCPv4) (ip : net.IP) (n : Z) (m : net.IPMask) :
  dhcpv4.YourIPAddr d = Some ip ->
  net.Equal ip net.IPv4zero = false ->
  net.CIDRMask n 32 = Some m ->
  dhcpv4.SubnetMask d = Some m ->
  fst (net.Size m) = n
  /\ (netboot.GetNetConfFromPacketv4 d
        = (None, Some (errors_New
             "netmask extracted from OptSubnetMask options is null"))
      <-> n = 0).
Proof.
  intros Hip Hz Hc Hm.
  assert (Hn : 0 <= n <= 32).
  { unfold net.CIDRMask in Hc. simpl in Hc.
    destruct (n <? 0) eqn:H0; [discriminate|].
    destruct (32 <? n) eqn:H32; [discriminate|].
    apply Z.ltb_ge in H0, H32. lia. }
  destruct (Size_CIDRMask_32 n Hn) as (m' & Hc' & Hs).
  rewrite Hc in Hc'. injection Hc' as <-.
  split; [now rewrite Hs|].
  rewrite GetNetConfFromPacketv4_eq, Hip, Hz, Hm, Hs. simpl fst.
  destruct (n =? 0) eqn:H0.
  - apply Z.eqb_eq in H0. tauto.
  - apply Z.eqb_neq in H0. split; [|contradiction].
    destruct (dhcpv4.DomainSearch d) as [l|]; [|discriminate].
    destruct (rfc1035label.Labels_ l); discriminate.
Qed.

Lemma X3_v4_cidr_masks_witness :
  fst (net.Size (Samples.ip4 255 255 255 0)) = 24
  /\ (netboot.GetNetConfFromPacketv4 Samples.ack4
        = (None, Some (errors_New
             "netmask extracted from OptSubnetMask options is null"))
      <-> 24 = 0).
Proof.
  apply (X3_v4_cidr_masks Samples.ack4 (Samples.ip4 192 0 2 50) 24
           (Samples.ip4 255 255 255 0)); reflexivity.
Defined.

(** ** [GetNetConfFromPacketv6]: the fields other than the addresses *)

(** X4.  A NetConf extracted from a v6 reply never has routers; its DNS
    servers and NTP servers are the accessors' results, its search list
    the labels of the domain-search option (none when absent), and it has
    as many addresses as the IA_NA binds. *)
Theorem X4_v6_fields (d : dhcpv6.Message) (nc : netboot.NetConf) :
  netboot.GetNetConfFromPacketv6 d = (Some nc, None) ->
  netboot.Routers nc = []
  /\ netboot.DNSServers nc = dhcpv6.DNS (dhcpv6.Options d)
  /\ netboot.NTPServers nc = dhcpv6.NTPServers (dhcpv6.Options d)
  /\ netboot.DNSSearchList nc
     = match dhcpv6.DomainSearchList (dhcpv6.Options d) with
       | Some domains => rfc1035label.Labels_ domains
       | None => []
       end
  /\ exists iana,
       dhcpv6.OneIANA (dhcpv6.Options d) = Some iana
       /\ List.length (netboot.Addresses nc)
          = List.length (dhcpv6.Addresses (dhcpv6.IANA_Options iana)).
Proof.
  rewrite GetNetConfFromPacketv6_eq.
  destruct (dhcpv6.OneIANA (dhcpv6.Options d)) as [iana|]; [|discriminate].
  intros [= <-]. repeat split.
  exists iana; split; [reflexivity|]. simpl. apply length_map.
Qed.

Lemma X4_v6_fields_witness :
  exists nc,
    netboot.GetNetConfFromPacketv6 Samples.reply6 = (Some nc, None)
    /\ netboot.Routers nc = []
    /\ List.length (netboot.Addresses nc) = 2%nat.
Proof.
  exists (netconf6 Samples.reply6
            (dhcpv6.mkOptIANA (1800 * time.Second) (2880 * time.Second)
               (dhcpv6.mkIdentityOptions
                  [ dhcpv6.mkOptIAAddress (Samples.addr6 1)
                      (3600 * time.Second) (7200 * time.Second);
                    dhcpv6.mkOptIAAddress (Samples.addr6 2)
                      (60 * time.Second) (120 * time.Second) ]))).
  split; [reflexivity|].
  destruct (X4_v6_fields Samples.reply6 _ eq_refl) as (Hr & _ & _ & _ & _).
  split; [exact Hr|reflexivity].
Defined.

(** ** Extraction does not look at the message header *)

(** X5.  Neither extraction function reads the opcode, the transaction
    identifier or the message type: a v4 message gives the same result
    under any header and message-type option, and so does a v6 message;
    in particular no check is made that the message is a reply. *)
Theorem X5_extraction_ignores_header
    (d4 : dhcpv4.DHCPv4) (op : dhcpv4.OpcodeType) (xid : dhcpv4.TxID)
    (mt : option dhcpv4.MessageType_t)
    (d6 : dhcpv6.Message) (mt6 : N) (xid6 : byte * byte * byte) :
  netboot.GetNetConfFromPacketv4
    (dhcpv4.mkDHCPv4 op xid (dhcpv4.YourIPAddr d4)
       (let o := dhcpv4.Options_ d4 in
        dhcpv4.mkOptions mt (dhcpv4.optSubnetMask o) (dhcpv4.optIPAddressLeaseTime o)
          (dhcpv4.optDNS o) (dhcpv4.optDomainSearch o) (dhcpv4.optRouter o)
          (dhcpv4.optNTPServers o)))
  = netboot.GetNetConfFromPacketv4 d4
  /\ netboot.GetNetConfFromPacketv6 (dhcpv6.mkMessage mt6 xid6 (dhcpv6.Options d6))
     = netboot.GetNetConfFromPacketv6 d6.
Proof.
  destruct d4 as [op0 xid0 yi [mt0 sm lt dns ds rt ntp]], d6 as [m0 x0 o6].
  split; reflexivity.
Qed.

(** ** [IfUp]: every way a call can end *)

(** What a finished run of the loop has done: [n] polls found the
    interface down and were each followed by a sleep of 100 ms, and then
    either a poll found it up, or a lookup failed, or the deadline check
    failed. *)
Lemma IfUp_loop_trace (env : netboot.Env) (ifname : string)
    (timeout : time.Duration) (start : time.Time) (fuel : nat) :
  forall (w w' : netboot.World) (r : option net.Interface) (err : option error),
    netboot.IfUp_loop env fuel ifname timeout start w = Some (r, err, w') ->
    exists n : nat,
      netboot.sleeps w' = netboot.sleeps w ++ repeat (100 * time.Millisecond) n
      /\ netboot.clock_reads w' = (netboot.clock_reads w + 1 + n)%nat
      /\ (forall k, (k < n)%nat ->
            exists iface,
              netboot.ifquery env (netboot.lookups w + k)%nat ifname = inl iface
              /\ N.land (net.Flags_ iface) net.FlagUp = 0%N)
      /\ ((exists iface,
              r = Some iface /\ err = None
              /\ netboot.ifquery env (netboot.lookups w + n)%nat ifname = inl iface
              /\ N.land (net.Flags_ iface) net.FlagUp <> 0%N
              /\ netboot.lookups w' = (netboot.lookups w + n + 1)%nat)
          \/ (exists e,
                r = None /\ err = Some e
                /\ netboot.ifquery env (netboot.lookups w + n)%nat ifname = inr e
                /\ netboot.lookups w' = (netboot.lookups w + n + 1)%nat)
          \/ (r = None
              /\ err = Some (fmt_Errorf "timed out while waiting for %s to come up"
                               [arg_string ifname])
              /\ netboot.lookups w' = (netboot.lookups w + n)%nat
              /\ timeout <= netboot.clock env (netboot.clock_reads w + n)%nat - start)).
Proof.
  induction fuel as [|fuel IH]; intros w w' r err Hrun; [discriminate|].
  cbn [netboot.IfUp_loop] in Hrun.
  unfold netboot.time_Since, netboot.time_Now in Hrun.
  destruct (_ <? timeout) eqn:Hlt.
  - unfold netboot.net_InterfaceByName in Hrun.
    cbn [netboot.clock_reads netboot.lookups netboot.sleeps] in Hrun.
    destruct (netboot.ifquery env (netboot.lookups w) ifname) as [iface|e] eqn:Hq.
    + destruct (N.eqb (N.land (net.Flags_ iface) net.FlagUp) 0) eqn:Hup;
        cbn [negb] in Hrun.
      * apply IH in Hrun. cbn [netboot.time_Sleep netboot.sleeps netboot.clock_reads
                                 netboot.lookups] in Hrun.
        destruct Hrun as (n & Hs & Hc & Hdown & Hend).
        exists (S n). repeat apply conj.
        -- rewrite Hs, <- app_assoc. reflexivity.
        -- lia.
        -- intros [|k] Hk.
           ++ exists iface. rewrite Nat.add_0_r. split; [assumption|].
              now apply N.eqb_eq.
           ++ destruct (Hdown k ltac:(lia)) as (i & Hi & Hf).
              exists i. split; [|assumption].
              now replace (netboot.lookups w + S k)%nat
                with (S (netboot.lookups w) + k)%nat by lia.
        -- replace (netboot.lookups w + S n)%nat
             with (S (netboot.lookups w) + n)%nat by lia.
           replace (netboot.clock_reads w + S n)%nat
             with (S (netboot.clock_reads w) + n)%nat by lia.
           replace (netboot.lookups w + S n + 1)%nat
             with (S (netboot.lookups w) + n + 1)%nat by lia.
           exact Hend.
      * injection Hrun as <- <- <-. exists 0%nat. repeat apply conj.
        -- simpl. now rewrite app_nil_r.
        -- simpl. lia.
        -- intros k Hk; lia.
        -- left. exists iface. rewrite Nat.add_0_r.
           repeat split; auto; [now apply N.eqb_neq | simpl; lia].
    + injection Hrun as <- <- <-. exists 0%nat. repeat apply conj.
      * simpl. now rewrite app_nil_r.
      * simpl. lia.
      * intros k Hk; lia.
      * right; left. exists e. rewrite Nat.add_0_r.
        repeat split; auto. simpl; lia.
  - injection Hrun as <- <- <-. exists 0%nat. repeat apply conj.
    + simpl. now rewrite app_nil_r.
    + simpl. lia.
    + intros k Hk; lia.
    + right; right. rewrite !Nat.add_0_r. repeat split.
      now apply Z.ltb_ge.
Qed.

(** A run of the loop reads the clock once per round. *)
Lemma IfUp_loop_reads_bound (env : netboot.Env) (ifname : string)
    (timeout : time.Duration) (start : time.Time) (fuel : nat) :
  forall (w : netboot.World) x,
    netboot.IfUp_loop env fuel ifname timeout start w = Some x ->
    (netboot.clock_reads (snd x) <= netboot.clock_reads w + fuel)%nat.
Proof.
  induction fuel as [|fuel IH]; intros w x Hx; [discriminate|].
  cbn [netboot.IfUp_loop] in Hx.
  unfold netboot.time_Since, netboot.time_Now, netboot.net_InterfaceByName in Hx.
  cbn [netboot.clock_reads netboot.lookups netboot.sleeps] in Hx.
  destruct (_ <? timeout).
  - destruct (netboot.ifquery env _ ifname) as [iface|e].
    + destruct (negb _).
      * injection Hx as <-. simpl. lia.
      * apply IH in Hx. simpl in Hx. lia.
    + injection Hx as <-. simpl. lia.
  - injection Hx as <-. simpl. lia.
Qed.

(** X6.  Whenever [IfUp] returns, it has polled [n] times finding the
    interface down, slept 100 ms after each of these polls and at no other
    time, and then ended in one of three ways: the next poll found the
    interface up, which is returned with no error; or the next lookup
    failed, and its error is returned as it is; or the deadline check
    failed, and the timeout error naming the interface is returned without
    a further lookup. *)
Theorem X6_ifup_outcomes (env : netboot.Env) (fuel : nat) (ifname : string)
    (timeout : time.Duration) (w w' : netboot.World)
    (r : option net.Interface) (err : option error) :
  netboot.IfUp env fuel ifname timeout w = Some (r, err, w') ->
  exists n : nat,
    netboot.sleeps w' = netboot.sleeps w ++ repeat (100 * time.Millisecond) n
    /\ netboot.clock_reads w' = (netboot.clock_reads w + 2 + n)%nat
    /\ (forall k, (k < n)%nat ->
          exists iface,
            netboot.ifquery env (netboot.lookups w + k)%nat ifname = inl iface
            /\ N.land (net.Flags_ iface) net.FlagUp = 0%N)
    /\ ((exists iface,
            r = Some iface /\ err = None
            /\ netboot.ifquery env (netboot.lookups w + n)%nat ifname = inl iface
            /\ N.land (net.Flags_ iface) net.FlagUp <> 0%N
            /\ netboot.lookups w' = (netboot.lookups w + n + 1)%nat)
        \/ (exists e,
              r = None /\ err = Some e
              /\ netboot.ifquery env (netboot.lookups w + n)%nat ifname = inr e
              /\ netboot.lookups w' = (netboot.lookups w + n + 1)%nat)
        \/ (r = None
            /\ err = Some (fmt_Errorf "timed out while waiting for %s to come up"
                             [arg_string ifname])
            /\ netboot.lookups w' = (netboot.lookups w + n)%nat
            /\ timeout
               <= netboot.clock env (netboot.clock_reads w + 1 + n)%nat
                  - netboot.clock env (netboot.clock_reads w))).
Proof.
  unfold netboot.IfUp, netboot.time_Now. intros Hrun.
  apply IfUp_loop_trace in Hrun.
  cbn [netboot.clock_reads netboot.lookups netboot.sleeps] in Hrun.
  destruct Hrun as (n & Hs & Hc & Hdown & Hend).
  exists n. repeat apply conj; auto; [lia|].
  replace (netboot.clock_reads w + 1 + n)%nat
    with (S (netboot.clock_reads w) + n)%nat by lia.
  exact Hend.
Qed.

Lemma X6_ifup_outcomes_witness :
  exists n : nat,
    [100 * time.Millisecond; 100 * time.Millisecond]
      = [] ++ repeat (100 * time.Millisecond) n
    /\ 4%nat = (0 + 2 + n)%nat.
Proof.
  destruct (X6_ifup_outcomes Samples.os_eth0_late 50 "eth0" (5 * time.Second)
              netboot.World_start
              (netboot.mkWorld 4 3 [100 * time.Millisecond; 100 * time.Millisecond])
              (Some Samples.eth0) None)
    as (n & Hs & Hc & _).
  - vm_compute; reflexivity.
  - exists n. split; [exact Hs|exact Hc].
Defined.

(** X7.  A lookup failure is fatal at once: when the first deadline check
    passes and the lookup fails, [IfUp] returns that error after a single
    lookup and without sleeping, whatever time is left. *)
Theorem X7_ifup_lookup_failure (env : netboot.Env) (fuel : nat) (ifname : string)
    (timeout : time.Duration) (w : netboot.World) (e : error) :
  netboot.clock env (S (netboot.clock_reads w))
    - netboot.clock env (netboot.clock_reads w) < timeout ->
  netboot.ifquery env (netboot.lookups w) ifname = inr e ->
  netboot.IfUp env (S fuel) ifname timeout w
  = Some (None, Some e,
          netboot.mkWorld (S (S (netboot.clock_reads w))) (S (netboot.lookups w))
            (netboot.sleeps w)).
Proof.
  intros Ht Hq. unfold netboot.IfUp, netboot.time_Now.
  cbn [netboot.IfUp_loop]. unfold netboot.time_Since, netboot.time_Now.
  cbn [netboot.clock_reads netboot.lookups netboot.sleeps].
  apply Z.ltb_lt in Ht; rewrite Ht.
  unfold netboot.net_InterfaceByName.
  cbn [netboot.clock_reads netboot.lookups netboot.sleeps].
  now rewrite Hq.
Qed.

Lemma X7_ifup_lookup_failure_witness :
  netboot.IfUp Samples.os_eth0_up 1 "eth7" (5 * time.Second) netboot.World_start
  = Some (None, Some (errors_New "route ip+net: no such network interface"),
          netboot.mkWorld 2 1 []).
Proof.
  apply (X7_ifup_lookup_failure Samples.os_eth0_up 0 "eth7" (5 * time.Second)
           netboot.World_start).
  - vm_compute; reflexivity.
  - reflexivity.
Defined.

(** X8.  When every clock reading made after a sleep shows at least the
    100 ms slept, and every lookup finds the interface down, [IfUp] ends
    with the timeout error naming the interface, within one poll per
    100 ms of the timeout. *)
Theorem X8_ifup_never_up (env : netboot.Env) (ifname : string)
    (timeout : time.Duration) (w : netboot.World) (f : nat) :
  netboot.clock env (netboot.clock_reads w)
    <= netboot.clock env (S (netboot.clock_reads w)) ->
  (forall k, (S (netboot.clock_reads w) <= k)%nat ->
             netboot.clock env k + 100 * time.Millisecond
             <= netboot.clock env (S k)) ->
  (forall k, exists iface,
      netboot.ifquery env k ifname = inl iface
      /\ N.land (net.Flags_ iface) net.FlagUp = 0%N) ->
  timeout <= Z.of_nat f * (100 * time.Millisecond) ->
  exists w',
    netboot.IfUp env (S f) ifname timeout w
    = Some (None,
            Some (fmt_Errorf "timed out while waiting for %s to come up"
                    [arg_string ifname]),
            w')
    /\ (List.length (netboot.sleeps w')
        <= List.length (netboot.sleeps w) + f)%nat.
Proof.
  intros Hfirst Hclock Hdown Hf.
  destruct (IfUp_terminates env ifname timeout w f Hfirst Hclock Hf)
    as [[[r err] w'] Hrun].
  pose proof Hrun as Htrace.
  unfold netboot.IfUp, netboot.time_Now in Htrace.
  apply IfUp_loop_trace in Htrace.
  cbn [netboot.clock_reads netboot.lookups netboot.sleeps] in Htrace.
  destruct Htrace as (n & Hs & Hc & _ & Hend).
  assert (Hn : (n <= f)%nat).
  { pose proof Hrun as Hb. unfold netboot.IfUp, netboot.time_Now in Hb.
    apply IfUp_loop_reads_bound in Hb.
    cbn [snd netboot.clock_reads] in Hb. lia. }
  exists w'. destruct Hend as [(iface & _ & _ & Hq & Hup & _)
                              | [(e & _ & _ & Hq & _) | (-> & -> & _ & _)]].
  - destruct (Hdown (netboot.lookups w + n)%nat) as (i & Hi & Hi0). congruence.
  - destruct (Hdown (netboot.lookups w + n)%nat) as (i & Hi & Hi0). congruence.
  - split; [exact Hrun|]. rewrite Hs, length_app, repeat_length. lia.
Qed.

Lemma X8_ifup_never_up_witness :
  exists w',
    netboot.IfUp Samples.os_eth0_down 11 "eth0" time.Second netboot.World_start
    = Some (None,
            Some (fmt_Errorf "timed out while waiting for %s to come up"
                    [arg_string "eth0"]),
            w')
    /\ (List.length (netboot.sleeps w') <= 0 + 10)%nat.
Proof.
  apply (X8_ifup_never_up Samples.os_eth0_down "eth0" time.Second
           netboot.World_start 10).
  - vm_compute; discriminate.
  - intros k _. unfold Samples.os_eth0_down, netboot.clock.
    unfold time.Second, time.Millisecond, time.Nanosecond. lia.
  - intros k. exists Samples.eth0_down. split; reflexivity.
  - vm_compute; discriminate.
Defined.

(** X9.  When every clock reading made after a sleep shows at least the
    100 ms slept, [IfUp] returns, whatever the lookups answer, within one
    round more than the timeout has periods of 100 ms. *)
Theorem X9_ifup_returns (env : netboot.Env) (ifname : string)
    (timeout : time.Duration) (w : netboot.World) (f : nat) :
  netboot.clock env (netboot.clock_reads w)
    <= netboot.clock env (S (netboot.clock_reads w)) ->
  (forall k, (S (netboot.clock_reads w) <= k)%nat ->
             netboot.clock env k + 100 * time.Millisecond
             <= netboot.clock env (S k)) ->
  timeout <= Z.of_nat f * (100 * time.Millisecond) ->
  exists r err w',
    netboot.IfUp env (S f) ifname timeout w = Some (r, err, w')
    /\ (netboot.lookups w' <= netboot.lookups w + S f)%nat.
Proof.
  intros Hfirst Hclock Hf.
  destruct (IfUp_terminates env ifname timeout w f Hfirst Hclock Hf)
    as [[[r err] w'] Hrun].
  exists r, err, w'. split; [exact Hrun|].
  pose proof Hrun as Hb. unfold netboot.IfUp, netboot.time_Now in Hb.
  apply IfUp_loop_reads_bound in Hb. cbn [snd netboot.clock_reads] in Hb.
  unfold netboot.IfUp, netboot.time_Now in Hrun.
  apply IfUp_loop_trace in Hrun.
  cbn [netboot.clock_reads netboot.lookups netboot.sleeps] in Hrun.
  destruct Hrun as (n & _ & Hc & _ & [(i & _ & _ & _ & _ & Hl)
                                     | [(e & _ & _ & _ & Hl) | (_ & _ & Hl & _)]]);
    lia.
Qed.

Lemma X9_ifup_returns_witness :
  exists r err w',
    netboot.IfUp Samples.os_eth0_late 51 "eth0" (5 * time.Second) netboot.World_start
    = Some (r, err, w')
    /\ (netboot.lookups w' <= 0 + 51)%nat.
Proof.
  apply (X9_ifup_returns Samples.os_eth0_late "eth0" (5 * time.Second)
           netboot.World_start 50).
  - vm_compute; discriminate.
  - intros k _. unfold Samples.os_eth0_late, netboot.clock.
    unfold time.Second, time.Millisecond, time.Nanosecond. lia.
  - vm_compute; discriminate.
Defined.

(** X10.  With a timeout that is not positive, on a clock that does not
    run backwards, [IfUp] returns the timeout error without looking the
    interface up and without sleeping. *)
Theorem X10_ifup_nonpositive_timeout (env : netboot.Env) (fuel : nat)
    (ifname : string) (timeout : time.Duration) (w : netboot.World) :
  timeout <= 0 ->
  netboot.clock env (netboot.clock_reads w)
    <= netboot.clock env (S (netboot.clock_reads w)) ->
  netboot.IfUp env (S fuel) ifname timeout w
  = Some (None,
          Some (fmt_Errorf "timed out while waiting for %s to come up"
                  [arg_string ifname]),
          netboot.mkWorld (S (S (netboot.clock_reads w))) (netboot.lookups w)
            (netboot.sleeps w)).
Proof. exact (IfUp_nonpositive_timeout env fuel ifname timeout w). Qed.

Lemma X10_ifup_nonpositive_timeout_witness :
  netboot.IfUp Samples.os_eth0_up 1 "eth0" (-1) netboot.World_start
  = Some (None,
          Some (fmt_Errorf "timed out while waiting for %s to come up"
                  [arg_string "eth0"]),
          netboot.mkWorld 2 0 []).
Proof.
  apply (X10_ifup_nonpositive_timeout Samples.os_eth0_up 0 "eth0" (-1)
           netboot.World_start).
  - lia.
  - vm_compute; discriminate.
Defined.

(** ** [toUDPAddr] and the client's addresses *)

(** X11.  [toUDPAddr] succeeds exactly when the address it settles on, the
    default for a nil address and otherwise the given [*net.UDPAddr], has
    an IP with a four-byte form; it then returns that very address, with
    its IP as it was given.  An address of any other type is refused. *)
Theorem X11_toUDPAddr_iff (addr : option net.Addr) (defaultAddr u : net.UDPAddr) :
  client4.toUDPAddr addr defaultAddr = inl u
  <-> ((addr = None /\ u = defaultAddr) \/ addr = Some (net.Addr_UDP u))
      /\ exists ip4, net.To4 (net.UDPAddr_IP u) = Some ip4.
Proof.
  unfold client4.toUDPAddr. split.
  - destruct addr as [[a|t]|].
    + destruct (net.To4 (net.UDPAddr_IP a)) as [ip4|] eqn:H4; [|discriminate].
      intros [= <-]. split; [now right|now exists ip4].
    + discriminate.
    + destruct (net.To4 (net.UDPAddr_IP defaultAddr)) as [ip4|] eqn:H4; [|discriminate].
      intros [= <-]. split; [now left|now exists ip4].
  - intros [[[-> ->]| ->] [ip4 H4]]; now rewrite H4.
Qed.

(** X12.  A client without addresses of its own uses 0.0.0.0, port 68,
    locally and 255.255.255.255, port 67, remotely, and neither default is
    ever refused; an address whose IP has no four-byte form is refused
    with the error of [toUDPAddr] wrapped once. *)
Theorem X12_client_addresses (c : client4.Client) :
  (client4.LocalAddr c = None ->
     client4.getLocalUDPAddr c = inl (net.mkUDPAddr net.IPv4zero 68))
  /\ (client4.RemoteAddr c = None ->
        client4.getRemoteUDPAddr c = inl (net.mkUDPAddr net.IPv4bcast 67))
  /\ (forall a, client4.LocalAddr c = Some (net.Addr_UDP a) ->
        net.To4 (net.UDPAddr_IP a) = None ->
        client4.getLocalUDPAddr c
        = inr (fmt_Errorf "Invalid local address: %s"
                 [arg_error (fmt_Errorf "'%s' is not a valid IPv4 address"
                               [arg_IP (net.UDPAddr_IP a)])]))
  /\ (forall a, client4.RemoteAddr c = Some (net.Addr_UDP a) ->
        net.To4 (net.UDPAddr_IP a) = None ->
        client4.getRemoteUDPAddr c
        = inr (fmt_Errorf "Invalid remote address: %s"
                 [arg_error (fmt_Errorf "'%s' is not a valid IPv4 address"
                               [arg_IP (net.UDPAddr_IP a)])])).
Proof.
  unfold client4.getLocalUDPAddr, client4.getRemoteUDPAddr, client4.toUDPAddr.
  repeat apply conj.
  - intros ->. reflexivity.
  - intros ->. reflexivity.
  - intros a -> H4. now rewrite H4.
  - intros a -> H4. now rewrite H4.
Qed.

Lemma X12_client_addresses_witness :
  client4.getLocalUDPAddr client4.NewClient = inl (net.mkUDPAddr net.IPv4zero 68)
  /\ client4.getRemoteUDPAddr client4.NewClient = inl (net.mkUDPAddr net.IPv4bcast 67)
  /\ client4.getRemoteUDPAddr
       (client4.mkClient 0 0
          (Some (net.Addr_UDP (net.mkUDPAddr (Samples.addr6 1) 547))) None)
     = inr (fmt_Errorf "Invalid remote address: %s"
              [arg_error (fmt_Errorf "'%s' is not a valid IPv4 address"
                            [arg_IP (Samples.addr6 1)])]).
Proof.
  repeat apply conj.
  - apply (proj1 (X12_client_addresses client4.NewClient)). reflexivity.
  - apply (proj1 (proj2 (X12_client_addresses client4.NewClient))). reflexivity.
  - apply (proj2 (proj2 (proj2 (X12_client_addresses
             (client4.mkClient 0 0
                (Some (net.Addr_UDP (net.mkUDPAddr (Samples.addr6 1) 547))) None))))
             (net.mkUDPAddr (Samples.addr6 1) 547)); reflexivity.
Defined.

(** ** [sendReceive]: one send, then reads *)

Section SendReceiveFacts.

Variable FromBytes : list byte -> dhcpv4.DHCPv4 + error.
Variable ToBytes : dhcpv4.DHCPv4 -> list byte.
Variable c : client4.Client.
Variable packet : dhcpv4.DHCPv4.
Variable raddr : net.UDPAddr.
Variable messageType : dhcpv4.MessageType_t.

(** The four places where [sendReceive] returns, with the state the
    socket is left in. *)
Lemma sendReceive_cases (conn conn' : client4.UDPConn) (r : dhcpv4.DHCPv4 + error) :
  client4.sendReceive FromBytes ToBytes c conn packet raddr messageType = (r, conn') ->
  (exists e,
      r = inr e
      /\ client4.written conn' = client4.written conn
      /\ client4.incoming conn' = client4.incoming conn
      /\ (fst (client4.next_result (client4.setWriteDeadline_results conn)) = Some e
          \/ (fst (client4.next_result (client4.setWriteDeadline_results conn)) = None
              /\ exists e',
                   fst (client4.next_result (client4.writeTo_results conn)) = Some e'
                   /\ e = fmt_Errorf "failed to send DHCP packet: %v" [arg_error e'])))
  \/ (fst (client4.next_result (client4.setWriteDeadline_results conn)) = None
      /\ fst (client4.next_result (client4.writeTo_results conn)) = None
      /\ client4.written conn' = client4.written conn ++ [(ToBytes packet, raddr)]
      /\ client4.writeDeadline conn' = Some (client4.WriteTimeout c)
      /\ ((exists e,
              r = inr e
              /\ fst (client4.next_result (client4.setReadDeadline_results conn)) = Some e
              /\ client4.incoming conn' = client4.incoming conn)
          \/ (fst (client4.next_result (client4.setReadDeadline_results conn)) = None
              /\ client4.readDeadline conn' = Some (client4.ReadTimeout c)
              /\ client4.receive_loop FromBytes packet messageType (client4.incoming conn)
                 = (r, client4.incoming conn')))).
Proof.
  unfold client4.sendReceive, client4.SetWriteDeadline, client4.WriteTo,
    client4.SetReadDeadline.
  destruct (client4.next_result (client4.setWriteDeadline_results conn)) as [[e1|] l1];
    cbn [fst].
  { intros [= <- <-]. left. exists e1. cbn. auto. }
  cbn [client4.writeTo_results].
  destruct (client4.next_result (client4.writeTo_results conn)) as [[e2|] l2];
    cbn [fst].
  { intros [= <- <-]. left. eexists. cbn. split; [reflexivity|].
    split; [reflexivity|]. split; [reflexivity|]. right. eauto. }
  cbn [client4.setReadDeadline_results].
  destruct (client4.next_result (client4.setReadDeadline_results conn)) as [[e3|] l3];
    cbn [fst].
  { intros [= <- <-]. right. cbn. repeat split. left. exists e3. auto. }
  cbn [client4.incoming].
  destruct (client4.receive_loop FromBytes packet messageType (client4.incoming conn))
    as [res rest].
  intros [= <- <-]. right. cbn. repeat split. right. auto.
Qed.

End SendReceiveFacts.

(** X13.  When [sendReceive] returns a response, it has sent the packet
    exactly once, to [raddr], with both deadlines armed from the client's
    timeouts; the response passes the filter for the packet; it is the
    first datagram kept, everything before it was dropped, and everything
    after it is left unread on the socket. *)
Theorem X13_sendReceive_success
    (FromBytes : list byte -> dhcpv4.DHCPv4 + error)
    (ToBytes : dhcpv4.DHCPv4 -> list byte) (c : client4.Client)
    (conn conn' : client4.UDPConn) (packet response : dhcpv4.DHCPv4)
    (raddr : net.UDPAddr) (messageType : dhcpv4.MessageType_t) :
  client4.sendReceive FromBytes ToBytes c conn packet raddr messageType
    = (inl response, conn') ->
  client4.written conn' = client4.written conn ++ [(ToBytes packet, raddr)]
  /\ client4.writeDeadline conn' = Some (client4.WriteTimeout c)
  /\ client4.readDeadline conn' = Some (client4.ReadTimeout c)
  /\ client4.accept response (dhcpv4.TransactionID packet)
       dhcpv4.OpcodeBootReply messageType = true
  /\ exists junk datagram,
       client4.incoming conn
         = map inl junk ++ inl datagram :: client4.incoming conn'
       /\ forallb (fun dg => negb (client4.kept FromBytes packet messageType dg)) junk
          = true
       /\ FromBytes (firstn client4.MaxUDPReceivedPacketSize datagram) = inl response.
Proof.
  intros Hrun. apply sendReceive_cases in Hrun.
  destruct Hrun as [(e & He & _) | (_ & _ & Hw & Hwd & [(e & He & _) | (_ & Hrd & Hloop)])];
    try discriminate.
  repeat (split; [assumption|]).
  pose proof (loop_outcome FromBytes packet messageType (client4.incoming conn)) as Hout.
  rewrite Hloop in Hout.
  inversion Hout as [junk dg resp rest Hin Hj Hp Hk | |]; subst.
  split.
  - unfold client4.kept in Hk. now rewrite Hp in Hk.
  - now exists junk, dg.
Qed.

Lemma X13_sendReceive_success_witness :
  client4.written
    (snd (client4.sendReceive Toy.parse Toy.serialize client4.NewClient
            (Toy.socket Toy.traffic_without_ack) Toy.discover
            (net.mkUDPAddr net.IPv4bcast 67) dhcpv4.MessageTypeOffer))
  = [] ++ [(Toy.serialize Toy.discover, net.mkUDPAddr net.IPv4bcast 67)].
Proof.
  apply (X13_sendReceive_success Toy.parse Toy.serialize client4.NewClient
           (Toy.socket Toy.traffic_without_ack) _ Toy.discover Toy.offer
           (net.mkUDPAddr net.IPv4bcast 67) dhcpv4.MessageTypeOffer).
  vm_compute; reflexivity.
Defined.

(** X14.  However [sendReceive] ends, it has sent the packet at most once,
    and it has read nothing unless the packet was sent and the read
    deadline armed: a failure to arm the write deadline or to write leaves
    the socket's log and queue as they were, the first returned as it is
    and the second wrapped as a send failure. *)
Theorem X14_sendReceive_sends_once
    (FromBytes : list byte -> dhcpv4.DHCPv4 + error)
    (ToBytes : dhcpv4.DHCPv4 -> list byte) (c : client4.Client)
    (conn : client4.UDPConn) (packet : dhcpv4.DHCPv4)
    (raddr : net.UDPAddr) (messageType : dhcpv4.MessageType_t) :
  let '(r, conn') :=
    client4.sendReceive FromBytes ToBytes c conn packet raddr messageType in
  (client4.written conn' = client4.written conn
   \/ client4.written conn' = client4.written conn ++ [(ToBytes packet, raddr)])
  /\ (client4.incoming conn' <> client4.incoming conn ->
      client4.written conn' = client4.written conn ++ [(ToBytes packet, raddr)]
      /\ client4.readDeadline conn' = Some (client4.ReadTimeout c))
  /\ (forall e,
        fst (client4.next_result (client4.setWriteDeadline_results conn)) = Some e ->
        r = inr e /\ client4.written conn' = client4.written conn)
  /\ (forall e,
        fst (client4.next_result (client4.setWriteDeadline_results conn)) = None ->
        fst (client4.next_result (client4.writeTo_results conn)) = Some e ->
        r = inr (fmt_Errorf "failed to send DHCP packet: %v" [arg_error e])
        /\ client4.written conn' = client4.written conn).
Proof.
  destruct (client4.sendReceive FromBytes ToBytes c conn packet raddr messageType)
    as [r conn'] eqn:Hrun.
  apply sendReceive_cases in Hrun.
  destruct Hrun as [(e & He & Hw & Hi & Hwhy)
                   | (Hs1 & Hs2 & Hw & Hwd & [(e & He & Hs3 & Hi) | (Hs3 & Hrd & Hloop)])].
  - repeat apply conj.
    + now left.
    + intros Hne; contradiction.
    + intros e1 H1. destruct Hwhy as [H|[H _]]; [|congruence].
      split; [congruence|assumption].
    + intros e2 H1 H2. destruct Hwhy as [H|[_ (e' & H & ->)]]; [congruence|].
      split; [congruence|assumption].
  - repeat apply conj; try (intros; congruence).
    + now right.
  - repeat apply conj; try (intros; congruence).
    + now right.
    + intros _. now split.
Qed.

(** X15.  With the wildcard message type, the loop returns the first
    datagram that parses to a reply carrying the packet's transaction
    identifier, whatever its message type. *)
Theorem X15_wildcard_message_type
    (FromBytes : list byte -> dhcpv4.DHCPv4 + error)
    (packet response : dhcpv4.DHCPv4) (datagram : list byte)
    (rest : list (list byte + error)) :
  FromBytes (firstn client4.MaxUDPReceivedPacketSize datagram) = inl response ->
  dhcpv4.TransactionID response = dhcpv4.TransactionID packet ->
  dhcpv4.OpCode response = dhcpv4.OpcodeBootReply ->
  client4.receive_loop FromBytes packet dhcpv4.MessageTypeNone (inl datagram :: rest)
  = (inl response, rest).
Proof.
  intros Hp Hx Ho. rewrite loop_datagram, Hp.
  assert (Hk : client4.kept FromBytes packet dhcpv4.MessageTypeNone datagram = true).
  { unfold client4.kept. rewrite Hp. apply accept_iff.
    repeat split; auto. intros Hne; now contradiction Hne. }
  now rewrite Hk.
Qed.

Lemma X15_wildcard_message_type_witness :
  client4.receive_loop Toy.parse Toy.discover dhcpv4.MessageTypeNone
    (inl (Toy.serialize Toy.ack) :: [inl (Toy.serialize Toy.offer)])
  = (inl Toy.ack, [inl (Toy.serialize Toy.offer)]).
Proof.
  apply (X15_wildcard_message_type Toy.parse Toy.discover Toy.ack
           (Toy.serialize Toy.ack)); reflexivity.
Defined.

(** ** [Exchange]: the conversation it returns *)

Section ExchangeRuns.

Variable FromBytes : list byte -> dhcpv4.DHCPv4 + error.
Variable ToBytes : dhcpv4.DHCPv4 -> list byte.
Variable NewDiscoveryForInterface :
  string -> list dhcpv4.Modifier -> dhcpv4.DHCPv4 + error.
Variable NewRequestFromOffer :
  dhcpv4.DHCPv4 -> list dhcpv4.Modifier -> dhcpv4.DHCPv4 + error.
Variable ListenUDP : string -> net.UDPAddr -> client4.UDPConn + error.

Local Notation "'Exchange'" :=
  (client4.Exchange FromBytes ToBytes NewDiscoveryForInterface NewRequestFromOffer
     ListenUDP).

Lemma sendReceive_accepts (c : client4.Client) (conn conn' : client4.UDPConn)
    (packet response : dhcpv4.DHCPv4) (raddr : net.UDPAddr)
    (messageType : dhcpv4.MessageType_t) :
  client4.sendReceive FromBytes ToBytes c conn packet raddr messageType
    = (inl response, conn') ->
  client4.accept response (dhcpv4.TransactionID packet)
    dhcpv4.OpcodeBootReply messageType = true.
Proof.
  intros Hrun. apply sendReceive_cases in Hrun.
  destruct Hrun as [(e & He & _) | (_ & _ & _ & _ & [(e & He & _) | (_ & _ & Hloop)])];
    try discriminate.
  pose proof (loop_outcome FromBytes packet messageType (client4.incoming conn)) as Hout.
  rewrite Hloop in Hout.
  inversion Hout as [junk dg resp rest Hin Hj Hp Hk | |]; subst.
  unfold client4.kept in Hk. now rewrite Hp in Hk.
Qed.

(** The conversation of every run is in step order, and the error is nil
    exactly when all four steps are there. *)
Lemma Exchange_conversation (c : client4.Client) (ifname : string)
    (modifiers : list dhcpv4.Modifier) :
  conversation_ok NewDiscoveryForInterface NewRequestFromOffer ifname modifiers
    (fst (Exchange c ifname modifiers))
  /\ (snd (Exchange c ifname modifiers) = None
      <-> List.length (fst (Exchange c ifname modifiers)) = 4%nat).
Proof.
  unfold client4.Exchange.
  destruct (client4.getRemoteUDPAddr c) as [raddr|e];
    [|split; [exact I|split; discriminate]].
  destruct (client4.getLocalUDPAddr c) as [laddr|e];
    [|split; [exact I|split; discriminate]].
  destruct (ListenUDP _ _) as [conn|e];
    [|split; [exact I|split; discriminate]].
  destruct (NewDiscoveryForInterface ifname modifiers) as [discover|e] eqn:Hd;
    [|split; [exact I|split; discriminate]].
  destruct (client4.sendReceive _ _ c conn discover raddr dhcpv4.MessageTypeOffer)
    as [[offer|e] conn1] eqn:Ho;
    [|split; [simpl; auto|split; discriminate]].
  apply sendReceive_accepts in Ho.
  destruct (NewRequestFromOffer offer modifiers) as [request|e] eqn:Hr;
    [|split; [simpl; auto|split; discriminate]].
  destruct (client4.sendReceive _ _ c conn1 request raddr dhcpv4.MessageTypeAck)
    as [[ack|e] conn2] eqn:Ha;
    [|split; [simpl; auto|split; discriminate]].
  apply sendReceive_accepts in Ha.
  split; [simpl; auto|split; reflexivity].
Qed.

End ExchangeRuns.

(** X16.  Whatever the codec and the network do, the conversation
    [Exchange] returns is in step order and has at most one message per
    step: the Discover built for the interface, an Offer that passes the
    filter for it, the Request built from that Offer, an Ack that passes
    the filter for the Request.  The error is nil exactly when all four
    are there; with an error the conversation stops at the last step
    completed. *)
Theorem X16_exchange_conversation
    (FromBytes : list byte -> dhcpv4.DHCPv4 + error)
    (ToBytes : dhcpv4.DHCPv4 -> list byte)
    (NewDiscoveryForInterface : string -> list dhcpv4.Modifier -> dhcpv4.DHCPv4 + error)
    (NewRequestFromOffer :
       dhcpv4.DHCPv4 -> list dhcpv4.Modifier -> dhcpv4.DHCPv4 + error)
    (ListenUDP : string -> net.UDPAddr -> client4.UDPConn + error)
    (c : client4.Client) (ifname : string) (modifiers : list dhcpv4.Modifier) :
  let '(conversation, err) :=
    client4.Exchange FromBytes ToBytes NewDiscoveryForInterface NewRequestFromOffer
      ListenUDP c ifname modifiers in
  conversation_ok NewDiscoveryForInterface NewRequestFromOffer ifname modifiers
    conversation
  /\ (List.length conversation <= 4)%nat
  /\ (err = None <-> List.length conversation = 4%nat).
Proof.
  pose proof (Exchange_conversation FromBytes ToBytes NewDiscoveryForInterface
                NewRequestFromOffer ListenUDP c ifname modifiers) as [Hok Hlen].
  destruct (client4.Exchange _ _ _ _ _ c ifname modifiers) as [conversation err].
  cbn [fst snd] in *. split; [assumption|]. split; [|assumption].
  destruct conversation as [|d [|o [|r [|a [|x tl]]]]]; simpl; try lia.
  simpl in Hok. tauto.
Qed.

(** X17.  When the Discover is sent and the socket delivers no datagram
    that is kept as the Offer before reading ends with the deadline error,
    [Exchange] returns the Discover alone and the error of the receive,
    whose kind is Timeout; no Request is built. *)
Theorem X17_exchange_offer_timeout
    (FromBytes : list byte -> dhcpv4.DHCPv4 + error)
    (ToBytes : dhcpv4.DHCPv4 -> list byte)
    (NewDiscoveryForInterface : string -> list dhcpv4.Modifier -> dhcpv4.DHCPv4 + error)
    (NewRequestFromOffer :
       dhcpv4.DHCPv4 -> list dhcpv4.Modifier -> dhcpv4.DHCPv4 + error)
    (ListenUDP : string -> net.UDPAddr -> client4.UDPConn + error)
    (c : client4.Client) (ifname : string) (modifiers : list dhcpv4.Modifier)
    (raddr laddr : net.UDPAddr) (conn : client4.UDPConn)
    (discover : dhcpv4.DHCPv4) (cause : error) :
  client4.getRemoteUDPAddr c = inl raddr ->
  client4.getLocalUDPAddr c = inl laddr ->
  ListenUDP "udp4" (net.mkUDPAddr net.IPv4zero (net.Port laddr)) = inl conn ->
  NewDiscoveryForInterface ifname modifiers = inl discover ->
  sends_ok conn ->
  no_reply_until_deadline (client4.kept FromBytes discover dhcpv4.MessageTypeOffer)
    (client4.incoming conn) cause ->
  client4.Exchange FromBytes ToBytes NewDiscoveryForInterface NewRequestFromOffer
    ListenUDP c ifname modifiers
  = ([discover],
     Some (fmt_Errorf "failed to receive DHCP response: %v" [arg_error cause]))
  /\ kind_of (fmt_Errorf "failed to receive DHCP response: %v" [arg_error cause])
     = Some Timeout.
Proof.
  intros Hr Hl Hconn Hd Hsend Hnone.
  destruct (receive_loop_no_reply FromBytes discover dhcpv4.MessageTypeOffer
              (client4.incoming conn) cause Hnone) as [Hloop Hkind].
  split; [|exact Hkind].
  unfold client4.Exchange. rewrite Hr, Hl, Hconn, Hd.
  pose proof (sendReceive_when_sent FromBytes ToBytes c conn discover raddr
                dhcpv4.MessageTypeOffer Hsend) as Hsr.
  rewrite Hloop in Hsr.
  destruct (client4.sendReceive FromBytes ToBytes c conn discover raddr
              dhcpv4.MessageTypeOffer) as [res conn1].
  simpl in Hsr; subst res. reflexivity.
Qed.

Lemma X17_exchange_offer_timeout_witness :
  client4.Exchange Toy.parse Toy.serialize Toy.discovery Toy.request_from
    (Toy.listen [inl (Toy.serialize Toy.foreign_offer); inl (Toy.serialize Toy.ack)])
    client4.NewClient "eth0" []
  = ([Toy.discover],
     Some (fmt_Errorf "failed to receive DHCP response: %v"
             [arg_error ErrDeadlineExceeded]))
  /\ kind_of (fmt_Errorf "failed to receive DHCP response: %v"
                [arg_error ErrDeadlineExceeded])
     = Some Timeout.
Proof.
  apply (X17_exchange_offer_timeout Toy.parse Toy.serialize Toy.discovery
           Toy.request_from
           (Toy.listen [inl (Toy.serialize Toy.foreign_offer);
                        inl (Toy.serialize Toy.ack)])
           client4.NewClient "eth0" []
           (net.mkUDPAddr net.IPv4bcast dhcpv4.ServerPort)
           (net.mkUDPAddr net.IPv4zero dhcpv4.ClientPort)
           (Toy.socket [inl (Toy.serialize Toy.foreign_offer);
                        inl (Toy.serialize Toy.ack)])
           Toy.discover ErrDeadlineExceeded).
  - reflexivity.
  - reflexivity.
  - reflexivity.
  - reflexivity.
  - repeat split.
  - apply (nothing_more _ [Toy.serialize Toy.foreign_offer; Toy.serialize Toy.ack]).
    vm_compute; reflexivity.
Defined.

(** X18.  When the Discover is sent, an Offer for it is received, the
    Request is built and sent, and a datagram that is kept as the Ack
    arrives after datagrams that are all dropped, [Exchange] returns the
    four messages Discover, Offer, Request, Ack and no error. *)
Theorem X18_exchange_complete
    (FromBytes : list byte -> dhcpv4.DHCPv4 + error)
    (ToBytes : dhcpv4.DHCPv4 -> list byte)
    (NewDiscoveryForInterface : string -> list dhcpv4.Modifier -> dhcpv4.DHCPv4 + error)
    (NewRequestFromOffer :
       dhcpv4.DHCPv4 -> list dhcpv4.Modifier -> dhcpv4.DHCPv4 + error)
    (ListenUDP : string -> net.UDPAddr -> client4.UDPConn + error)
    (c : client4.Client) (ifname : string) (modifiers : list dhcpv4.Modifier)
    (raddr laddr : net.UDPAddr) (conn conn1 : client4.UDPConn)
    (discover offer request ack : dhcpv4.DHCPv4)
    (junk : list (list byte)) (datagram : list byte)
    (rest : list (list byte + error)) :
  client4.getRemoteUDPAddr c = inl raddr ->
  client4.getLocalUDPAddr c = inl laddr ->
  ListenUDP "udp4" (net.mkUDPAddr net.IPv4zero (net.Port laddr)) = inl conn ->
  NewDiscoveryForInterface ifname modifiers = inl discover ->
  client4.sendReceive FromBytes ToBytes c conn discover raddr dhcpv4.MessageTypeOffer
    = (inl offer, conn1) ->
  NewRequestFromOffer offer modifiers = inl request ->
  sends_ok conn1 ->
  client4.incoming conn1 = map inl junk ++ inl datagram :: rest ->
  forallb (fun dg => negb (client4.kept FromBytes request dhcpv4.MessageTypeAck dg)) junk
    = true ->
  FromBytes (firstn client4.MaxUDPReceivedPacketSize datagram) = inl ack ->
  client4.kept FromBytes request dhcpv4.MessageTypeAck datagram = true ->
  client4.Exchange FromBytes ToBytes NewDiscoveryForInterface NewRequestFromOffer
    ListenUDP c ifname modifiers
  = ([discover; offer; request; ack], None).
Proof.
  intros Hr Hl Hconn Hd Hoffer Hreq Hsend Hin Hj Hp Hk.
  unfold client4.Exchange. rewrite Hr, Hl, Hconn, Hd, Hoffer, Hreq.
  pose proof (sendReceive_when_sent FromBytes ToBytes c conn1 request raddr
                dhcpv4.MessageTypeAck Hsend) as Hsr.
  rewrite Hin, loop_drop_all, loop_datagram, Hp, Hk in Hsr by assumption.
  destruct (client4.sendReceive FromBytes ToBytes c conn1 request raddr
              dhcpv4.MessageTypeAck) as [res conn2].
  simpl in Hsr; subst res. reflexivity.
Qed.

Lemma X18_exchange_complete_witness :
  client4.Exchange Toy.parse Toy.serialize Toy.discovery Toy.request_from
    (Toy.listen (Toy.traffic_without_ack ++ [inl (Toy.serialize Toy.ack)]))
    client4.NewClient "eth0" []
  = ([Toy.discover; Toy.offer; Toy.request; Toy.ack], None).
Proof.
  apply (X18_exchange_complete Toy.parse Toy.serialize Toy.discovery
           Toy.request_from
           (Toy.listen (Toy.traffic_without_ack ++ [inl (Toy.serialize Toy.ack)]))
           client4.NewClient "eth0" []
           (net.mkUDPAddr net.IPv4bcast dhcpv4.ServerPort)
           (net.mkUDPAddr net.IPv4zero dhcpv4.ClientPort)
           (Toy.socket (Toy.traffic_without_ack ++ [inl (Toy.serialize Toy.ack)]))
           (client4.mkUDPConn [] [] []
              [inl (Toy.serialize Toy.offer); inl (Toy.serialize Toy.foreign_ack);
               inl []; inl (Toy.serialize Toy.ack)]
              [(Toy.serialize Toy.discover,
                net.mkUDPAddr net.IPv4bcast dhcpv4.ServerPort)]
              (Some client4.DefaultWriteTimeout) (Some client4.DefaultReadTimeout))
           Toy.discover Toy.offer Toy.request Toy.ack
           [Toy.serialize Toy.offer; Toy.serialize Toy.foreign_ack; []]
           (Toy.serialize Toy.ack) []).
  - reflexivity.
  - reflexivity.
  - reflexivity.
  - reflexivity.
  - vm_compute; reflexivity.
  - reflexivity.
  - repeat split.
  - reflexivity.
  - vm_compute; reflexivity.
  - reflexivity.
  - vm_compute; reflexivity.
Defined.

(** X19.  When the write of the Discover fails, [Exchange] returns the
    Discover alone and that error wrapped as a send failure, of kind
    Transport; it does not write again and reads nothing. *)
Theorem X19_exchange_send_failure
    (FromBytes : list byte -> dhcpv4.DHCPv4 + error)
    (ToBytes : dhcpv4.DHCPv4 -> list byte)
    (NewDiscoveryForInterface : string -> list dhcpv4.Modifier -> dhcpv4.DHCPv4 + error)
    (NewRequestFromOffer :
       dhcpv4.DHCPv4 -> list dhcpv4.Modifier -> dhcpv4.DHCPv4 + error)
    (ListenUDP : string -> net.UDPAddr -> client4.UDPConn + error)
    (c : client4.Client) (ifname : string) (modifiers : list dhcpv4.Modifier)
    (raddr laddr : net.UDPAddr) (conn : client4.UDPConn)
    (discover : dhcpv4.DHCPv4) (e : error) :
  client4.getRemoteUDPAddr c = inl raddr ->
  client4.getLocalUDPAddr c = inl laddr ->
  ListenUDP "udp4" (net.mkUDPAddr net.IPv4zero (net.Port laddr)) = inl conn ->
  NewDiscoveryForInterface ifname modifiers = inl discover ->
  fst (client4.next_result (client4.setWriteDeadline_results conn)) = None ->
  fst (client4.next_result (client4.writeTo_results conn)) = Some e ->
  client4.Exchange FromBytes ToBytes NewDiscoveryForInterface NewRequestFromOffer
    ListenUDP c ifname modifiers
  = ([discover], Some (fmt_Errorf "failed to send DHCP packet: %v" [arg_error e]))
  /\ kind_of (fmt_Errorf "failed to send DHCP packet: %v" [arg_error e])
     = Some Transport
  /\ snd (client4.sendReceive FromBytes ToBytes c conn discover raddr
            dhcpv4.MessageTypeOffer)
     = client4.mkUDPConn
         (snd (client4.next_result (client4.setWriteDeadline_results conn)))
         (snd (client4.next_result (client4.writeTo_results conn)))
         (client4.setReadDeadline_results conn)
         (client4.incoming conn) (client4.written conn)
         (Some (client4.WriteTimeout c)) (client4.readDeadline conn).
Proof.
  intros Hr Hl Hconn Hd Hs1 Hs2.
  unfold client4.Exchange. rewrite Hr, Hl, Hconn, Hd.
  unfold client4.sendReceive, client4.SetWriteDeadline, client4.WriteTo.
  destruct (client4.next_result (client4.setWriteDeadline_results conn)) as [r1 l1].
  cbn [fst] in Hs1; subst r1. cbn.
  destruct (client4.next_result (client4.writeTo_results conn)) as [r2 l2].
  cbn [fst] in Hs2; subst r2. cbn. repeat split.
Qed.

Lemma X19_exchange_send_failure_witness :
  client4.Exchange Toy.parse Toy.serialize Toy.discovery Toy.request_from
    (fun _ _ =>
       inl (client4.mkUDPConn [] [Some (os_error "network is unreachable" false)] []
              Toy.traffic_without_ack [] None None))
    client4.NewClient "eth0" []
  = ([Toy.discover],
     Some (fmt_Errorf "failed to send DHCP packet: %v"
             [arg_error (os_error "network is unreachable" false)])).
Proof.
  apply (X19_exchange_send_failure Toy.parse Toy.serialize Toy.discovery
           Toy.request_from
           (fun _ _ =>
              inl (client4.mkUDPConn [] [Some (os_error "network is unreachable" false)]
                     [] Toy.traffic_without_ack [] None None))
           client4.NewClient "eth0" []
           (net.mkUDPAddr net.IPv4bcast dhcpv4.ServerPort)
           (net.mkUDPAddr net.IPv4zero dhcpv4.ClientPort)
           (client4.mkUDPConn [] [Some (os_error "network is unreachable" false)] []
              Toy.traffic_without_ack [] None None)
           Toy.discover (os_error "network is unreachable" false));
    reflexivity.
Defined.

(** ** The test server's address pool *)

Lemma incr_to_N (b : byte) :
  Byte.to_N (dhcpserver4.incr b) = ((Byte.to_N b + 1) mod 256)%N.
Proof. destruct b; reflexivity. Qed.

Section ServerFacts.

Variable ParseIP : string -> option net.IP.
Variable NewReplyFromRequest :
  dhcpv4.DHCPv4 -> list dhcpv4.Modifier -> dhcpv4.DHCPv4 + error.
Variable WithMessageType : dhcpv4.MessageType_t -> dhcpv4.Modifier.
Variable WithServerIP : option net.IP -> dhcpv4.Modifier.
Variable WithYourIP : option net.IP -> dhcpv4.Modifier.
Variable WithNetmask : option net.IPMask -> dhcpv4.Modifier.
Variable WithRouter : list (option net.IP) -> dhcpv4.Modifier.
Variable WithDNS : list (option net.IP) -> dhcpv4.Modifier.
Variable WithLeaseTime : Z -> dhcpv4.Modifier.
Variable RequestedIPAddress : dhcpv4.DHCPv4 -> option net.IP.
Variable ToBytes : dhcpv4.DHCPv4 -> list byte.
Variable fl : dhcpserver4.Flags.

Local Notation "'handler'" :=
  (dhcpserver4.handler ParseIP NewReplyFromRequest WithMessageType WithServerIP
     WithYourIP WithNetmask WithRouter WithDNS WithLeaseTime RequestedIPAddress
     ToBytes fl).

(** A pool [a.b.c.s] to [a.b.c.e] with [s <= e < 255] is never left, and
    [handler] does not panic on it. *)
Lemma handler_keeps_pool (a b c s a' b' c' e x : byte)
    (peer : net.Addr) (m : dhcpv4.DHCPv4) :
  dhcpserver4.To4_of (ParseIP (dhcpserver4.rangeStart fl)) = Some [a; b; c; s] ->
  dhcpserver4.To4_of (ParseIP (dhcpserver4.rangeEnd fl)) = Some [a'; b'; c'; e] ->
  (Byte.to_N s <= Byte.to_N e)%N ->
  (Byte.to_N e < 255)%N ->
  (Byte.to_N s <= Byte.to_N x <= Byte.to_N e)%N ->
  exists x' sent,
    handler (Some [a; b; c; x]) peer m = dhcpserver4.Done (Some [a; b; c; x']) sent
    /\ (Byte.to_N s <= Byte.to_N x' <= Byte.to_N e)%N.
Proof.
  intros Hs He Hse He255 Hx. unfold dhcpserver4.handler.
  destruct (N.eqb (dhcpv4.MessageType m) dhcpv4.MessageTypeDiscover).
  { destruct (NewReplyFromRequest m _); eauto. }
  destruct (N.eqb (dhcpv4.MessageType m) dhcpv4.MessageTypeRequest); [|eauto].
  destruct (NewReplyFromRequest m _) as [resp|err]; [|eauto].
  cbn [nth_error firstn skipn app]. rewrite He. cbn [nth_error].
  pose proof (incr_to_N x) as Hi.
  rewrite N.mod_small in Hi by lia.
  destruct (Byte.to_N e <? Byte.to_N (dhcpserver4.incr x))%N eqn:Hlt.
  - rewrite Hs. exists s. eexists. split; [reflexivity|lia].
  - apply N.ltb_ge in Hlt. exists (dhcpserver4.incr x). eexists.
    split; [reflexivity|lia].
Qed.

(** The first Discover puts the pool at its start. *)
Lemma handler_first_discover (start : net.IP) (peer : net.Addr) (m : dhcpv4.DHCPv4) :
  dhcpserver4.To4_of (ParseIP (dhcpserver4.rangeStart fl)) = Some start ->
  dhcpv4.MessageType m = dhcpv4.MessageTypeDiscover ->
  exists sent, handler None peer m = dhcpserver4.Done (Some start) sent.
Proof.
  intros Hs Hm. unfold dhcpserver4.handler. rewrite Hm, Hs. cbn.
  destruct (NewReplyFromRequest m _); eauto.
Qed.

(** A Request that is answered while [nextIP] is still nil panics. *)
Lemma handler_request_first (peer : net.Addr) (m resp : dhcpv4.DHCPv4) :
  dhcpv4.MessageType m = dhcpv4.MessageTypeRequest ->
  NewReplyFromRequest m
    (dhcpserver4.reply_modifiers ParseIP WithMessageType WithServerIP WithYourIP
       WithNetmask WithRouter WithDNS WithLeaseTime fl dhcpv4.MessageTypeAck
       (match RequestedIPAddress m with
        | None => dhcpv4.YourIPAddr m
        | Some ip => Some ip
        end))
    = inl resp ->
  handler None peer m = dhcpserver4.Panic.
Proof.
  intros Hm Hr. unfold dhcpserver4.handler. rewrite Hm. cbn. now rewrite Hr.
Qed.

(** With a range that ends in 255 the comparison after the increment
    never holds: the pool is never put back at its start. *)
Lemma handler_end_255 (a b c x a' b' c' e : byte)
    (peer : net.Addr) (m resp : dhcpv4.DHCPv4) :
  dhcpserver4.To4_of (ParseIP (dhcpserver4.rangeEnd fl)) = Some [a'; b'; c'; e] ->
  Byte.to_N e = 255%N ->
  dhcpv4.MessageType m = dhcpv4.MessageTypeRequest ->
  NewReplyFromRequest m
    (dhcpserver4.reply_modifiers ParseIP WithMessageType WithServerIP WithYourIP
       WithNetmask WithRouter WithDNS WithLeaseTime fl dhcpv4.MessageTypeAck
       (match RequestedIPAddress m with
        | None => dhcpv4.YourIPAddr m
        | Some ip => Some ip
        end))
    = inl resp ->
  handler (Some [a; b; c; x]) peer m
  = dhcpserver4.Done (Some [a; b; c; dhcpserver4.incr x]) (Some (ToBytes resp, peer)).
Proof.
  intros He H255 Hm Hr. unfold dhcpserver4.handler. rewrite Hm. cbn.
  rewrite Hr, He. cbn [nth_error].
  assert (Hlt : (Byte.to_N e <? Byte.to_N (dhcpserver4.incr x))%N = false).
  { apply N.ltb_ge. rewrite H255. apply Byte.to_N_bounded. }
  now rewrite Hlt.
Qed.

(** A Discover does not move the pool: the address it offers stays the
    next one. *)
Lemma handler_discover_keeps (ip : net.IP) (peer : net.Addr) (m : dhcpv4.DHCPv4) :
  List.length ip = 4%nat ->
  dhcpv4.MessageType m = dhcpv4.MessageTypeDiscover ->
  handler (Some ip) peer m
  = match NewReplyFromRequest m
            (dhcpserver4.reply_modifiers ParseIP WithMessageType WithServerIP
               WithYourIP WithNetmask WithRouter WithDNS WithLeaseTime fl
               dhcpv4.MessageTypeOffer (Some ip)) with
    | inl resp => dhcpserver4.Done (Some ip) (Some (ToBytes resp, peer))
    | inr _ => dhcpserver4.Done (Some ip) None
    end.
Proof.
  intros Hlen Hm. unfold dhcpserver4.handler. rewrite Hm. cbn [N.eqb Pos.eqb].
  change (N.eqb dhcpv4.MessageTypeDiscover dhcpv4.MessageTypeDiscover) with true.
  cbv iota.
  assert (Hc : dhcpserver4.copy4 (Some ip) = ip).
  { unfold dhcpserver4.copy4.
    destruct ip as [|b0 [|b1 [|b2 [|b3 [|b4 tl]]]]]; try discriminate. reflexivity. }
  rewrite Hc. reflexivity.
Qed.

End ServerFacts.

(** X20.  With a range [a.b.c.s] to [_._._.e] where [s <= e < 255], the
    first Discover puts [nextIP] at the start of the range, and from any
    address [a.b.c.x] of the range every message leaves [nextIP] at an
    address of the range, without a panic. *)
Theorem X20_server_pool_kept
    (ParseIP : string -> option net.IP)
    (NewReplyFromRequest : dhcpv4.DHCPv4 -> list dhcpv4.Modifier -> dhcpv4.DHCPv4 + error)
    (WithMessageType : dhcpv4.MessageType_t -> dhcpv4.Modifier)
    (WithServerIP WithYourIP : option net.IP -> dhcpv4.Modifier)
    (WithNetmask : option net.IPMask -> dhcpv4.Modifier)
    (WithRouter WithDNS : list (option net.IP) -> dhcpv4.Modifier)
    (WithLeaseTime : Z -> dhcpv4.Modifier)
    (RequestedIPAddress : dhcpv4.DHCPv4 -> option net.IP)
    (ToBytes : dhcpv4.DHCPv4 -> list byte) (fl : dhcpserver4.Flags)
    (a b c s a' b' c' e : byte) (peer : net.Addr) (m : dhcpv4.DHCPv4) :
  dhcpserver4.To4_of (ParseIP (dhcpserver4.rangeStart fl)) = Some [a; b; c; s] ->
  dhcpserver4.To4_of (ParseIP (dhcpserver4.rangeEnd fl)) = Some [a'; b'; c'; e] ->
  (Byte.to_N s <= Byte.to_N e)%N ->
  (Byte.to_N e < 255)%N ->
  (dhcpv4.MessageType m = dhcpv4.MessageTypeDiscover ->
   exists sent,
     dhcpserver4.handler ParseIP NewReplyFromRequest WithMessageType WithServerIP
       WithYourIP WithNetmask WithRouter WithDNS WithLeaseTime RequestedIPAddress
       ToBytes fl None peer m
     = dhcpserver4.Done (Some [a; b; c; s]) sent)
  /\ (forall x,
        (Byte.to_N s <= Byte.to_N x <= Byte.to_N e)%N ->
        exists x' sent,
          dhcpserver4.handler ParseIP NewReplyFromRequest WithMessageType WithServerIP
            WithYourIP WithNetmask WithRouter WithDNS WithLeaseTime RequestedIPAddress
            ToBytes fl (Some [a; b; c; x]) peer m
          = dhcpserver4.Done (Some [a; b; c; x']) sent
          /\ (Byte.to_N s <= Byte.to_N x' <= Byte.to_N e)%N).
Proof.
  intros Hs He Hse He255. split.
  - intros Hm. now apply handler_first_discover.
  - intros x Hx. now apply (handler_keeps_pool _ _ _ _ _ _ _ _ _ _ _ _ a b c s a' b' c' e).
Qed.

Lemma X20_server_pool_kept_witness :
  (exists sent,
      ToyServer.handler None ToyServer.peer Toy.discover
      = dhcpserver4.Done (Some (Samples.ip4 192 168 1 100)) sent)
  /\ (exists x' sent,
        ToyServer.handler (Some (Samples.ip4 192 168 1 200)) ToyServer.peer Toy.request
        = dhcpserver4.Done (Some [B 192; B 168; B 1; x']) sent
        /\ (Byte.to_N (B 100) <= Byte.to_N x' <= Byte.to_N (B 200))%N).
Proof.
  split.
  - apply (proj1 (X20_server_pool_kept ToyServer.parse_ip ToyServer.reply
                    ToyServer.with_type ToyServer.keep ToyServer.with_yiaddr
                    ToyServer.keep ToyServer.keep ToyServer.keep ToyServer.keep
                    ToyServer.requested Toy.serialize dhcpserver4.default_flags
                    (B 192) (B 168) (B 1) (B 100) (B 192) (B 168) (B 1) (B 200)
                    ToyServer.peer Toy.discover
                    eq_refl eq_refl ltac:(vm_compute; discriminate) eq_refl)).
    reflexivity.
  - apply (proj2 (X20_server_pool_kept ToyServer.parse_ip ToyServer.reply
                    ToyServer.with_type ToyServer.keep ToyServer.with_yiaddr
                    ToyServer.keep ToyServer.keep ToyServer.keep ToyServer.keep
                    ToyServer.requested Toy.serialize dhcpserver4.default_flags
                    (B 192) (B 168) (B 1) (B 100) (B 192) (B 168) (B 1) (B 200)
                    ToyServer.peer Toy.request
                    eq_refl eq_refl ltac:(vm_compute; discriminate) eq_refl)
             (B 200)).
    split; vm_compute; discriminate.
Defined.

(** X21.  A Request that arrives before any Discover, and for which a
    reply can be built, makes [handler] panic: [nextIP] is still nil when
    its fourth byte is incremented, and no Ack is written. *)
Theorem X21_server_request_first_panics
    (ParseIP : string -> option net.IP)
    (NewReplyFromRequest : dhcpv4.DHCPv4 -> list dhcpv4.Modifier -> dhcpv4.DHCPv4 + error)
    (WithMessageType : dhcpv4.MessageType_t -> dhcpv4.Modifier)
    (WithServerIP WithYourIP : option net.IP -> dhcpv4.Modifier)
    (WithNetmask : option net.IPMask -> dhcpv4.Modifier)
    (WithRouter WithDNS : list (option net.IP) -> dhcpv4.Modifier)
    (WithLeaseTime : Z -> dhcpv4.Modifier)
    (RequestedIPAddress : dhcpv4.DHCPv4 -> option net.IP)
    (ToBytes : dhcpv4.DHCPv4 -> list byte) (fl : dhcpserver4.Flags)
    (peer : net.Addr) (m resp : dhcpv4.DHCPv4) :
  dhcpv4.MessageType m = dhcpv4.MessageTypeRequest ->
  NewReplyFromRequest m
    (dhcpserver4.reply_modifiers ParseIP WithMessageType WithServerIP WithYourIP
       WithNetmask WithRouter WithDNS WithLeaseTime fl dhcpv4.MessageTypeAck
       (match RequestedIPAddress m with
        | None => dhcpv4.YourIPAddr m
        | Some ip => Some ip
        end))
    = inl resp ->
  dhcpserver4.handler ParseIP NewReplyFromRequest WithMessageType WithServerIP
    WithYourIP WithNetmask WithRouter WithDNS WithLeaseTime RequestedIPAddress
    ToBytes fl None peer m
  = dhcpserver4.Panic.
Proof. intros Hm Hr. now apply (handler_request_first _ _ _ _ _ _ _ _ _ _ _ _ peer m resp). Qed.

Lemma X21_server_request_first_panics_witness :
  ToyServer.handler None ToyServer.peer Toy.request = dhcpserver4.Panic.
Proof.
  apply (X21_server_request_first_panics ToyServer.parse_ip ToyServer.reply
           ToyServer.with_type ToyServer.keep ToyServer.with_yiaddr
           ToyServer.keep ToyServer.keep ToyServer.keep ToyServer.keep
           ToyServer.requested Toy.serialize dhcpserver4.default_flags
           ToyServer.peer Toy.request
           (Toy.message dhcpv4.OpcodeBootReply Samples.xid1 dhcpv4.MessageTypeAck));
    reflexivity.
Defined.

(** X22.  When the range ends in an address whose last byte is 255, an
    answered Request always leaves [nextIP] at the incremented address,
    255 wrapping to 0: the pool is never put back at the start of the
    range. *)
Theorem X22_server_end_255_never_restarts
    (ParseIP : string -> option net.IP)
    (NewReplyFromRequest : dhcpv4.DHCPv4 -> list dhcpv4.Modifier -> dhcpv4.DHCPv4 + error)
    (WithMessageType : dhcpv4.MessageType_t -> dhcpv4.Modifier)
    (WithServerIP WithYourIP : option net.IP -> dhcpv4.Modifier)
    (WithNetmask : option net.IPMask -> dhcpv4.Modifier)
    (WithRouter WithDNS : list (option net.IP) -> dhcpv4.Modifier)
    (WithLeaseTime : Z -> dhcpv4.Modifier)
    (RequestedIPAddress : dhcpv4.DHCPv4 -> option net.IP)
    (ToBytes : dhcpv4.DHCPv4 -> list byte) (fl : dhcpserver4.Flags)
    (a b c x a' b' c' e : byte) (peer : net.Addr) (m resp : dhcpv4.DHCPv4) :
  dhcpserver4.To4_of (ParseIP (dhcpserver4.rangeEnd fl)) = Some [a'; b'; c'; e] ->
  Byte.to_N e = 255%N ->
  dhcpv4.MessageType m = dhcpv4.MessageTypeRequest ->
  NewReplyFromRequest m
    (dhcpserver4.reply_modifiers ParseIP WithMessageType WithServerIP WithYourIP
       WithNetmask WithRouter WithDNS WithLeaseTime fl dhcpv4.MessageTypeAck
       (match RequestedIPAddress m with
        | None => dhcpv4.YourIPAddr m
        | Some ip => Some ip
        end))
    = inl resp ->
  dhcpserver4.handler ParseIP NewReplyFromRequest WithMessageType WithServerIP
    WithYourIP WithNetmask WithRouter WithDNS WithLeaseTime RequestedIPAddress
    ToBytes fl (Some [a; b; c; x]) peer m
  = dhcpserver4.Done (Some [a; b; c; dhcpserver4.incr x]) (Some (ToBytes resp, peer))
  /\ (Byte.to_N x = 255%N -> dhcpserver4.incr x = B 0).
Proof.
  intros He H255 Hm Hr. split.
  - now apply (handler_end_255 _ _ _ _ _ _ _ _ _ _ _ _ a b c x a' b' c' e).
  - intros Hx. unfold dhcpserver4.incr. now rewrite Hx.
Qed.

Lemma X22_server_end_255_never_restarts_witness :
  dhcpserver4.handler (fun _ => Some (Samples.ip4 10 0 0 255)) ToyServer.reply
    ToyServer.with_type ToyServer.keep ToyServer.with_yiaddr
    ToyServer.keep ToyServer.keep ToyServer.keep ToyServer.keep
    ToyServer.requested Toy.serialize dhcpserver4.default_flags
    (Some (Samples.ip4 10 0 0 255)) ToyServer.peer Toy.request
  = dhcpserver4.Done (Some (Samples.ip4 10 0 0 0))
      (Some (Toy.serialize
               (Toy.message dhcpv4.OpcodeBootReply Samples.xid1 dhcpv4.MessageTypeAck),
             ToyServer.peer)).
Proof.
  apply (X22_server_end_255_never_restarts
           (fun _ => Some (Samples.ip4 10 0 0 255)) ToyServer.reply
           ToyServer.with_type ToyServer.keep ToyServer.with_yiaddr
           ToyServer.keep ToyServer.keep ToyServer.keep ToyServer.keep
           ToyServer.requested Toy.serialize dhcpserver4.default_flags
           (B 10) (B 0) (B 0) (B 255) (B 10) (B 0) (B 0) (B 255)
           ToyServer.peer Toy.request
           (Toy.message dhcpv4.OpcodeBootReply Samples.xid1 dhcpv4.MessageTypeAck));
    reflexivity.
Defined.

(** X23.  A Discover does not move the pool: while [nextIP] is a four-byte
    address, the Offer is built for a copy of that address and [nextIP]
    stays as it is, so that successive Discovers are offered the same
    address until a Request is answered. *)
Theorem X23_server_discover_keeps_pool
    (ParseIP : string -> option net.IP)
    (NewReplyFromRequest : dhcpv4.DHCPv4 -> list dhcpv4.Modifier -> dhcpv4.DHCPv4 + error)
    (WithMessageType : dhcpv4.MessageType_t -> dhcpv4.Modifier)
    (WithServerIP WithYourIP : option net.IP -> dhcpv4.Modifier)
    (WithNetmask : option net.IPMask -> dhcpv4.Modifier)
    (WithRouter WithDNS : list (option net.IP) -> dhcpv4.Modifier)
    (WithLeaseTime : Z -> dhcpv4.Modifier)
    (RequestedIPAddress : dhcpv4.DHCPv4 -> option net.IP)
    (ToBytes : dhcpv4.DHCPv4 -> list byte) (fl : dhcpserver4.Flags)
    (ip : net.IP) (peer : net.Addr) (m : dhcpv4.DHCPv4) :
  List.length ip = 4%nat ->
  dhcpv4.MessageType m = dhcpv4.MessageTypeDiscover ->
  dhcpserver4.handler ParseIP NewReplyFromRequest WithMessageType WithServerIP
    WithYourIP WithNetmask WithRouter WithDNS WithLeaseTime RequestedIPAddress
    ToBytes fl (Some ip) peer m
  = match NewReplyFromRequest m
            (dhcpserver4.reply_modifiers ParseIP WithMessageType WithServerIP
               WithYourIP WithNetmask WithRouter WithDNS WithLeaseTime fl
               dhcpv4.MessageTypeOffer (Some ip)) with
    | inl resp => dhcpserver4.Done (Some ip) (Some (ToBytes resp, peer))
    | inr _ => dhcpserver4.Done (Some ip) None
    end.
Proof. intros Hl Hm. now apply handler_discover_keeps. Qed.

Lemma X23_server_discover_keeps_pool_witness :
  ToyServer.handler (Some (Samples.ip4 192 168 1 150)) ToyServer.peer Toy.discover
  = dhcpserver4.Done (Some (Samples.ip4 192 168 1 150))
      (Some (Toy.serialize
               (Toy.message dhcpv4.OpcodeBootReply Samples.xid1 dhcpv4.MessageTypeOffer),
             ToyServer.peer)).
Proof.
  apply (X23_server_discover_keeps_pool ToyServer.parse_ip ToyServer.reply
           ToyServer.with_type ToyServer.keep ToyServer.with_yiaddr
           ToyServer.keep ToyServer.keep ToyServer.keep ToyServer.keep
           ToyServer.requested Toy.serialize dhcpserver4.default_flags
           (Samples.ip4 192 168 1 150) ToyServer.peer Toy.discover);
    reflexivity.
Defined.
